(** * fraud-ex: TTL cache, cache invalidation hooks and analytics aggregation

    A shallow embedding of
      - [backend/app/core/cache.py]            (SimpleCache, cached),
      - [backend/app/api/routes/cases.py]      (upload_case_document, analyze_case),
      - [backend/app/api/routes/analytics.py]  (_get_cases_cached,
        get_risk_distribution, get_signal_breakdown),
    followed by the properties of these functions.

    Conventions of the embedding.
      - A Python [int] is a [Z].
      - [time.time()] is passed explicitly as an argument [now].  Timestamps
        are finite binary64 numbers, hence rationals; the cache only compares
        them and adds a TTL, so they are modelled in [Q].
      - [round(a / b, 1)] is evaluated on binary64 numbers ([PrimFloat]).
      - The process-wide [dict] of the cache is a [gmap]; dictionaries whose
        iteration order matters (detector_breakdown, signal_stats) are
        association lists in insertion order.
      - An [await] is a point where the awaited call either returns a value or
        raises; the functions take the outcome of the awaited call and the
        cache as it is when the coroutine resumes. *)

From Stdlib Require Import ZArith QArith List Bool String Ascii Lia Lqa.
From Stdlib Require Import Sorting.Sorted Sorting.Permutation.
From Stdlib Require Import Floats.PrimFloat Floats.SpecFloat Floats.FloatOps.
From stdpp Require Import base option gmap strings list fin_maps.

Local Open Scope string_scope.
Local Open Scope Z_scope.

(** ** Data model *)

(** One value of a [detector_breakdown] mapping.  The code distinguishes a
    [dict] (from which it reads the optional key ["score"]) from anything
    else, which it skips. *)
Inductive DetectorData :=
  | DetDict (score : option Z)
  | DetNotDict.

(** The [signals] mapping of a case: an optional ["detector_breakdown"]
    sub-mapping, and the other keys it holds (only their presence matters,
    for the truth value of the mapping). *)
Record Signals := {
  detector_breakdown : option (list (string * DetectorData));
  other_keys : list string
}.

(** A case as the service returns it, and the dictionary built from it by
    [_get_cases_cached]; the dictionary has exactly these five keys. *)
Record CaseDict := {
  case_id : string;
  status : string;
  risk_score : option Z;
  signals : option Signals;
  created_at : string
}.

Record CaseObj := {
  obj_case_id : string;
  obj_status : string;
  obj_risk_score : option Z;
  obj_signals : option Signals;
  obj_created_at : string;
  obj_file_path : string
}.

(** Payloads of the cache ([Any]). [PyNone] is Python's [None]. *)
Inductive Any :=
  | PyNone
  | PyInt (z : Z)
  | PyStr (s : string)
  | PyCases (cases : list CaseDict).

(** A number returned by [round(_, 1) if ... else 0]: a float, or the int 0. *)
Inductive PyNum :=
  | PyNumInt (z : Z)
  | PyNumFloat (f : float).

(** What an awaited service call does: it returns, or raises an exception of
    class [E]. *)
Inductive Outcome (E A : Type) :=
  | Returns (a : A)
  | Raises (e : E).
Arguments Returns {E A} a.
Arguments Raises {E A} e.

(** Result of an endpoint: the response body, or [HTTPException]. *)
Inductive Response (A : Type) :=
  | Body (a : A)
  | HTTPException (status_code : Z) (detail : string).
Arguments Body {A} a.
Arguments HTTPException {A} status_code detail.

(** ** cache.py *)

(** [x > y] on timestamps. *)
Definition Qgtb (x y : Q) : bool :=
  match (x ?= y)%Q with Gt => true | _ => false end.

Record CacheEntry := {
  value : Any;
  expires_at : Q
}.

Module SimpleCache.

Abbreviation t := (gmap string CacheEntry).

(** [__init__] *)
Definition init : t := ∅.

(** [get]: the returned value and the cache afterwards. *)
Definition get (now : Q) (key : string) (c : t) : Any * t :=
  match c !! key with
  | None => (PyNone, c)
  | Some entry =>
      if Qgtb now (expires_at entry)
      then (PyNone, delete key c)
      else (value entry, c)
  end.

Definition set (now : Q) (key : string) (v : Any) (ttl_seconds : Z) (c : t) : t :=
  <[key := {| value := v; expires_at := (now + inject_Z ttl_seconds)%Q |}]> c.

Definition invalidate (key : string) (c : t) : t :=
  delete key c.

(** [keys_to_remove = [k for k in self._cache.keys() if k.startswith(prefix)]] *)
Definition keys_to_remove (prefix : string) (c : t) : list string :=
  List.filter (String.prefix prefix) (map fst (map_to_list c)).

Definition invalidate_prefix (prefix : string) (c : t) : t :=
  fold_left (fun m key => delete key m) (keys_to_remove prefix c) c.

Definition clear (c : t) : t := ∅.

End SimpleCache.

(** The decorator [cached].  [key_prefix or func.__name__] picks the function
    name when the prefix is empty; [kwargs.get("user_id", "global")] is an
    optional user id.  [func_outcome] is what awaiting [func] gives;
    [now_get] and [now_set] are the clock readings of the two cache calls.
    The third component tells whether [func] was called. *)
Definition cached_wrapper {E : Type} (ttl_seconds : Z) (key_prefix func_name : string)
    (user_id : option string) (now_get now_set : Q)
    (func_outcome : Outcome E Any) (c : SimpleCache.t)
  : Outcome E Any * SimpleCache.t * bool :=
  let prefix := if String.eqb key_prefix "" then func_name else key_prefix in
  let user_id := match user_id with Some u => u | None => "global" end in
  let cache_key := prefix ++ ":" ++ user_id in
  let '(cached_value, c) := SimpleCache.get now_get cache_key c in
  match cached_value with
  | PyNone =>
      match func_outcome with
      | Returns result =>
          (Returns result, SimpleCache.set now_set cache_key result ttl_seconds c, true)
      | Raises e => (Raises e, c, true)
      end
  | _ => (Returns cached_value, c, false)
  end.

(** ** Exceptions raised by the case service

    The exception classes live in [app.domain.errors], outside the three
    modules embedded here.  An exception is its class with its base classes
    (what [isinstance] inspects) and its message (what [str(e)] returns). *)
Record Exn := {
  exn_classes : list string;
  exn_str : string
}.

Definition isinstance (e : Exn) (cls : string) : bool :=
  existsb (String.eqb cls) (exn_classes e).

(** ** cases.py *)

Module Cases.

(** The value an endpoint call ends with: a response body, an
    [HTTPException] raised by one of the handlers, or an exception that no
    handler catches. *)
Inductive Ended (A : Type) :=
  | Done (r : Response A)
  | Uncaught (e : Exn).
Arguments Done {A} r.
Arguments Uncaught {A} e.

(** [upload_case_document].  [created] is the outcome of
    [await service.create_case_from_upload(file)]. *)
Definition upload_case_document {A : Type} (user_id : string)
    (created : Outcome Exn A) (c : SimpleCache.t) : Ended A * SimpleCache.t :=
  match created with
  | Returns result =>
      let c := SimpleCache.invalidate ("cases:" ++ user_id) c in
      (Done (Body result), c)
  | Raises e =>
      if isinstance e "DomainError" then (Done (HTTPException 400 (exn_str e)), c)
      else if isinstance e "Exception" then (Done (HTTPException 500 (exn_str e)), c)
      else (Uncaught e, c)
  end.

(** [analyze_case].  [queued] is the outcome of
    [await service.queue_analysis(case_id)]. *)
Definition analyze_case {A : Type} (user_id : string)
    (queued : Outcome Exn A) (c : SimpleCache.t) : Ended A * SimpleCache.t :=
  match queued with
  | Returns queued =>
      let c := SimpleCache.invalidate ("cases:" ++ user_id) c in
      (Done (Body queued), c)
  | Raises e =>
      if isinstance e "CaseNotFound" then (Done (HTTPException 404 (exn_str e)), c)
      else if isinstance e "CaseMissingFile" || isinstance e "CaseExtractionFailed"
      then (Done (HTTPException 400 (exn_str e)), c)
      else if isinstance e "DomainError" then (Done (HTTPException 400 (exn_str e)), c)
      else if isinstance e "Exception" then (Done (HTTPException 500 (exn_str e)), c)
      else (Uncaught e, c)
  end.

(** [list_cases].  [listed] is the outcome of [await service.list_cases()]. *)
Definition list_cases {A : Type} (listed : Outcome Exn A) : Ended A :=
  match listed with
  | Returns cases => Done (Body cases)
  | Raises e =>
      if isinstance e "DomainError" then Done (HTTPException 400 (exn_str e))
      else if isinstance e "Exception" then Done (HTTPException 500 (exn_str e))
      else Uncaught e
  end.

(** [get_case].  [found] is the outcome of [await service.get_case(case_id)]. *)
Definition get_case {A : Type} (found : Outcome Exn A) : Ended A :=
  match found with
  | Returns case => Done (Body case)
  | Raises e =>
      if isinstance e "CaseNotFound" then Done (HTTPException 404 (exn_str e))
      else if isinstance e "DomainError" then Done (HTTPException 400 (exn_str e))
      else if isinstance e "Exception" then Done (HTTPException 500 (exn_str e))
      else Uncaught e
  end.

(** [get_analysis_job].  [found] is the outcome of
    [await service.get_analysis_job(job_id)]. *)
Definition get_analysis_job {A : Type} (found : Outcome Exn A) : Ended A :=
  match found with
  | Returns job => Done (Body job)
  | Raises e =>
      if isinstance e "AnalysisJobNotFound" then Done (HTTPException 404 (exn_str e))
      else if isinstance e "DomainError" then Done (HTTPException 400 (exn_str e))
      else if isinstance e "Exception" then Done (HTTPException 500 (exn_str e))
      else Uncaught e
  end.

End Cases.

(** ** Python numbers: [a / b] on ints and [round(x, 1)] on floats *)

(** [float(z)], correctly rounded; exact for [|z| <= 2^53]. *)
Definition float_of_int (z : Z) : float :=
  SF2Prim (binary_normalize prec emax z 0 false).

(** [a / b] for two ints (true division): the binary64 quotient of the two
    converted operands, which is Python's result whenever both operands are
    at most [2^53] in absolute value. *)
Definition py_truediv (a b : Z) : float :=
  (float_of_int a / float_of_int b)%float.

(** The integer nearest to [n * 2^e], ties to the even one. *)
Definition round_half_even (n e : Z) : Z :=
  if 0 <=? e then n * 2 ^ e
  else
    let d := 2 ^ (- e) in
    let q := n / d in
    let r := n mod d in
    if 2 * r <? d then q
    else if d <? 2 * r then q + 1
    else if Z.even q then q else q + 1.

(** [round(x, 1)]: the exact binary value of [x] is rounded to one decimal
    place, ties to even, and the decimal [k / 10] is read back as a float
    (the quotient of [k] by [10], which is the nearest float to the decimal
    whenever [|x| < 2^49]).  Infinities, NaN and zeros round to themselves. *)
Definition py_round1 (x : float) : float :=
  match Prim2SF x with
  | S754_finite s m e =>
      let k := round_half_even (10 * Z.pos m) e in
      let r := (float_of_int k / float_of_int 10)%float in
      if s then (- r)%float else r
  | _ => x
  end.

(** Insertion-ordered dictionaries with string keys. *)
Section Dict.
Context {V : Type}.

(** [k in d] *)
Definition dict_mem (k : string) (d : list (string * V)) : bool :=
  existsb (fun kv => String.eqb k (fst kv)) d.

(** [d[k] = v] for a key that is not in [d]: the key goes last. *)
Definition dict_add (k : string) (v : V) (d : list (string * V)) : list (string * V) :=
  d ++ [(k, v)].

(** In-place update of the object stored at [k]. *)
Definition dict_update (k : string) (f : V -> V) (d : list (string * V))
  : list (string * V) :=
  map (fun kv => if String.eqb k (fst kv) then (fst kv, f (snd kv)) else kv) d.

(** [d.values()] *)
Definition dict_values (d : list (string * V)) : list V := map snd d.
End Dict.

(** [sorted(l, key=key, reverse=True)]: descending by key, elements with
    equal keys in their original order. *)
Section Sorted.
Context {A : Type} (key : A -> Z).

Fixpoint insert_reverse (x : A) (l : list A) : list A :=
  match l with
  | [] => [x]
  | y :: l' => if key y <=? key x then x :: y :: l' else y :: insert_reverse x l'
  end.

Definition sorted_reverse (l : list A) : list A :=
  fold_right insert_reverse [] l.
End Sorted.

(** ** analytics.py *)

Module Analytics.

Definition CACHE_TTL : Z := 30.

(** The dictionary [_get_cases_cached] builds from a case. *)
Definition case_dict (c : CaseObj) : CaseDict :=
  {| case_id := obj_case_id c;
     status := obj_status c;
     risk_score := obj_risk_score c;
     signals := obj_signals c;
     created_at := obj_created_at c |}.

(** [_get_cases_cached].  [listed] is the outcome of
    [await service.list_cases()]; [now_get] and [now_set] are the clock
    readings of the two cache calls.  The third component tells whether the
    service was called. *)
Definition _get_cases_cached (now_get now_set : Q)
    (listed : Outcome Exn (list CaseObj)) (user_id : string) (c : SimpleCache.t)
  : Outcome Exn Any * SimpleCache.t * bool :=
  let cache_key := "cases:" ++ user_id in
  let '(cached, c) := SimpleCache.get now_get cache_key c in
  match cached with
  | PyNone =>
      match listed with
      | Returns cases =>
          let case_dicts := map case_dict cases in
          (Returns (PyCases case_dicts),
           SimpleCache.set now_set cache_key (PyCases case_dicts) CACHE_TTL c,
           true)
      | Raises e => (Raises e, c, true)
      end
  | _ => (Returns cached, c, false)
  end.

(** *** get_risk_distribution (the aggregation over the fetched cases) *)

Record Distribution := {
  low : Z;
  medium : Z;
  high : Z;
  critical : Z
}.

Record RiskDistribution := {
  distribution : Distribution;
  total_analyzed : Z;
  average_score : PyNum;
  min_score : Z;
  max_score : Z
}.

(** One iteration of [for case in cases], on the pair
    [(distribution, scores)]. *)
Definition risk_step (st : Distribution * list Z) (case : CaseDict)
  : Distribution * list Z :=
  let '(d, scores) := st in
  match risk_score case with
  | Some score =>
      if String.eqb (status case) "analyzed" then
        let scores := (scores ++ [score])%list in
        if score >=? 75 then
          ({| low := low d; medium := medium d; high := high d;
              critical := critical d + 1 |}, scores)
        else if score >=? 50 then
          ({| low := low d; medium := medium d; high := high d + 1;
              critical := critical d |}, scores)
        else if score >=? 25 then
          ({| low := low d; medium := medium d + 1; high := high d;
              critical := critical d |}, scores)
        else
          ({| low := low d + 1; medium := medium d; high := high d;
              critical := critical d |}, scores)
      else (d, scores)
  | None => (d, scores)
  end.

Definition risk_loop (cases : list CaseDict) : Distribution * list Z :=
  fold_left risk_step cases
    ({| low := 0; medium := 0; high := 0; critical := 0 |}, []).

Definition py_sum (l : list Z) : Z := fold_left Z.add l 0.

(** [min(l) if l else 0] and [max(l) if l else 0] *)
Definition py_min_or_0 (l : list Z) : Z :=
  match l with [] => 0 | x :: l' => fold_left Z.min l' x end.
Definition py_max_or_0 (l : list Z) : Z :=
  match l with [] => 0 | x :: l' => fold_left Z.max l' x end.

Definition get_risk_distribution (cases : list CaseDict) : RiskDistribution :=
  let '(d, scores) := risk_loop cases in
  {| distribution := d;
     total_analyzed := Z.of_nat (length scores);
     average_score :=
       match scores with
       | [] => PyNumInt 0
       | _ => PyNumFloat
                (py_round1 (py_truediv (py_sum scores) (Z.of_nat (length scores))))
       end;
     min_score := py_min_or_0 scores;
     max_score := py_max_or_0 scores |}.

End Analytics.

(** *** get_signal_breakdown (the aggregation over the fetched cases) *)

Module Signal.

(** A value of [signal_stats] while the loop runs. *)
Record Stats := {
  name : string;
  triggered_count : Z;
  total_score : Z;
  max_score : Z;
  case_ids : list string
}.

(** The same dictionary once [avg_score] is set and [total_score] deleted. *)
Record SignalStat := {
  out_name : string;
  out_triggered_count : Z;
  out_max_score : Z;
  out_case_ids : list string;
  out_avg_score : PyNum
}.

Definition new_stats (detector_name : string) : Stats :=
  {| name := detector_name; triggered_count := 0; total_score := 0;
     max_score := 0; case_ids := [] |}.

(** The body of [if score > 0:], on the stats object of the detector. *)
Definition trigger (cid : string) (score : Z) (stats : Stats) : Stats :=
  {| name := name stats;
     triggered_count := triggered_count stats + 1;
     total_score := total_score stats + score;
     max_score := Z.max (max_score stats) score;
     case_ids :=
       if (Z.of_nat (length (case_ids stats)) <? 10)
       then (case_ids stats ++ [cid])%list else case_ids stats |}.

(** One iteration of [for detector_name, detector_data in ...items()]. *)
Definition detector_step (cid : string) (signal_stats : list (string * Stats))
    (item : string * DetectorData) : list (string * Stats) :=
  let '(detector_name, detector_data) := item in
  match detector_data with
  | DetNotDict => signal_stats
  | DetDict score =>
      let score := match score with Some s => s | None => 0 end in
      let signal_stats :=
        if dict_mem detector_name signal_stats then signal_stats
        else dict_add detector_name (new_stats detector_name) signal_stats in
      if score >? 0
      then dict_update detector_name (trigger cid score) signal_stats
      else signal_stats
  end.

(** The truth value of [case.get("signals")]: a non-empty mapping. *)
Definition signals_truthy (s : option Signals) : bool :=
  match s with
  | None => false
  | Some s =>
      match detector_breakdown s, other_keys s with
      | None, [] => false
      | _, _ => true
      end
  end.

(** [case["signals"].get("detector_breakdown", {}).items()] *)
Definition breakdown_items (s : option Signals) : list (string * DetectorData) :=
  match s with
  | Some {| detector_breakdown := Some items |} => items
  | _ => []
  end.

(** One iteration of [for case in cases]. *)
Definition case_step (signal_stats : list (string * Stats)) (case : CaseDict)
  : list (string * Stats) :=
  if negb (String.eqb (status case) "analyzed") || negb (signals_truthy (signals case))
  then signal_stats
  else fold_left (detector_step (case_id case)) (breakdown_items (signals case))
         signal_stats.

Definition signal_loop (cases : list CaseDict) : list (string * Stats) :=
  fold_left case_step cases [].

(** The loop "Calculate averages". *)
Definition finish (stats : Stats) : SignalStat :=
  {| out_name := name stats;
     out_triggered_count := triggered_count stats;
     out_max_score := max_score stats;
     out_case_ids := case_ids stats;
     out_avg_score :=
       if triggered_count stats >? 0
       then PyNumFloat (py_round1 (py_truediv (total_score stats) (triggered_count stats)))
       else PyNumInt 0 |}.

(** The value under ["signals"] of the response. *)
Definition get_signal_breakdown (cases : list CaseDict) : list SignalStat :=
  sorted_reverse out_triggered_count
    (map finish (dict_values (signal_loop cases))).

End Signal.

(** ** Vocabulary of the properties *)

(** The four buckets and their score ranges. *)
Inductive Bucket := Low | Medium | High | Critical.

Definition in_bucket (b : Bucket) (score : Z) : Prop :=
  match b with
  | Low => 0 <= score < 25
  | Medium => 25 <= score < 50
  | High => 50 <= score < 75
  | Critical => 75 <= score <= 100
  end.

Definition in_bucketb (b : Bucket) (score : Z) : bool :=
  match b with
  | Low => (0 <=? score) && (score <? 25)
  | Medium => (25 <=? score) && (score <? 50)
  | High => (50 <=? score) && (score <? 75)
  | Critical => (75 <=? score) && (score <=? 100)
  end.

Definition bucket_count (b : Bucket) (d : Analytics.Distribution) : Z :=
  match b with
  | Low => Analytics.low d
  | Medium => Analytics.medium d
  | High => Analytics.high d
  | Critical => Analytics.critical d
  end.

Definition Bucket_eqb (b b' : Bucket) : bool :=
  match b, b' with
  | Low, Low | Medium, Medium | High, High | Critical, Critical => true
  | _, _ => false
  end.

(** [d'] is [d] with bucket [b], and no other, incremented by one. *)
Definition incremented (b : Bucket) (d d' : Analytics.Distribution) : Prop :=
  forall b', bucket_count b' d' = bucket_count b' d + (if Bucket_eqb b b' then 1 else 0).

(** A record that is analyzed and has a score in the range of [b]. *)
Definition scored_in (b : Bucket) (case : CaseDict) : bool :=
  String.eqb (status case) "analyzed" &&
  match risk_score case with Some s => in_bucketb b s | None => false end.

(** A record that contributes a score has it in [0, 100]. *)
Definition score_in_range (case : CaseDict) : Prop :=
  forall s, status case = "analyzed" -> risk_score case = Some s -> 0 <= s <= 100.

(** A detector entry met while scanning the records: the case it belongs
    to, the detector name, and the score read from it (0 when the entry has
    no score). *)
Record Entry := {
  e_case : string;
  e_name : string;
  e_score : Z
}.

(** The entries of one case, in the order of its [detector_breakdown]:
    none unless the case is analyzed and has signals, and none for a value
    that is not a dictionary. *)
Definition entries_of_items (cid : string) (items : list (string * DetectorData))
  : list Entry :=
  flat_map (fun item =>
              match snd item with
              | DetDict sc =>
                  [{| e_case := cid; e_name := fst item;
                      e_score := match sc with Some s => s | None => 0 end |}]
              | DetNotDict => []
              end) items.

Definition entries_of_case (case : CaseDict) : list Entry :=
  if String.eqb (status case) "analyzed" && Signal.signals_truthy (signals case)
  then entries_of_items (case_id case) (Signal.breakdown_items (signals case))
  else [].

(** All entries, in scanning order. *)
Definition entries (cases : list CaseDict) : list Entry :=
  flat_map entries_of_case cases.

(** The entries that trigger detector [d]: its entries with a score [> 0]. *)
Definition triggers (d : string) (e : Entry) : bool :=
  String.eqb d (e_name e) && (0 <? e_score e).

Definition triggering (d : string) (es : list Entry) : list Entry :=
  List.filter (triggers d) es.

(** The names of a list without repetition, each at its first occurrence. *)
Fixpoint first_seen (names : list string) : list string :=
  match names with
  | [] => []
  | n :: names' =>
      n :: List.filter (fun m => negb (String.eqb n m)) (first_seen names')
  end.

Definition detectors_seen (cases : list CaseDict) : list string :=
  first_seen (map e_name (entries cases)).

(** What the loop is expected to have accumulated for detector [d] once the
    entries [es] are processed. *)
Definition expected_stats (es : list Entry) (d : string) : Signal.Stats :=
  let hits := triggering d es in
  {| Signal.name := d;
     Signal.triggered_count := Z.of_nat (length hits);
     Signal.total_score := fold_left Z.add (map e_score hits) 0;
     Signal.max_score := fold_left Z.max (map e_score hits) 0;
     Signal.case_ids := firstn 10 (map e_case hits) |}.

(** [a] may stand before [b] in a list that is descending by [key]. *)
Definition descending {A : Type} (key : A -> Z) (a b : A) : Prop :=
  key b <= key a.

(** One loop iteration on a dictionary-valued item, seen as an entry. *)
Definition entry_step (signal_stats : list (string * Signal.Stats)) (e : Entry)
  : list (string * Signal.Stats) :=
  Signal.detector_step (e_case e) signal_stats (e_name e, DetDict (Some (e_score e))).

(** An analyzed case whose signals hold one detector with a score. *)
Definition case_with_detector (cid detector : string) (score : Z)
    (risk : option Z) (created : string) (others : list string) : CaseDict :=
  {| case_id := cid; status := "analyzed"; risk_score := risk;
     signals := Some {| detector_breakdown := Some [(detector, DetDict (Some score))];
                        other_keys := others |};
     created_at := created |}.

(** A record of which only the status and the risk score are given. *)
Definition case_with_score (cid st : string) (score : Z)
    (sig : option Signals) (created : string) : CaseDict :=
  {| case_id := cid; status := st; risk_score := Some score;
     signals := sig; created_at := created |}.

(** ** Further vocabulary *)

(** The key the decorator [cached] uses for a prefix, a function name and an
    optional user id. *)
Definition cached_key (key_prefix func_name : string) (user_id : option string)
  : string :=
  (if String.eqb key_prefix "" then func_name else key_prefix)
  ++ ":" ++ match user_id with Some u => u | None => "global" end.

(** The status code of an endpoint result that is an [HTTPException]. *)
Definition status_of {A : Type} (r : Cases.Ended A) : option Z :=
  match r with
  | Cases.Done (HTTPException code _) => Some code
  | _ => None
  end.

(** The detail of an endpoint result that is an [HTTPException]. *)
Definition detail_of {A : Type} (r : Cases.Ended A) : option string :=
  match r with
  | Cases.Done (HTTPException _ detail) => Some detail
  | _ => None
  end.

(** A record that enters the score statistics: analyzed, with a score. *)
Definition contributes (case : CaseDict) : bool :=
  String.eqb (status case) "analyzed" &&
  match risk_score case with Some _ => true | None => false end.

(** The scores of the contributing records, in scanning order. *)
Definition analyzed_scores (cases : list CaseDict) : list Z :=
  flat_map (fun case =>
              if String.eqb (status case) "analyzed"
              then match risk_score case with Some s => [s] | None => [] end
              else []) cases.

(** The scores a bucket receives when the score is any integer: only the
    three thresholds 25, 50 and 75 separate the buckets. *)
Definition by_threshold (b : Bucket) (score : Z) : bool :=
  match b with
  | Low => score <? 25
  | Medium => (25 <=? score) && (score <? 50)
  | High => (50 <=? score) && (score <? 75)
  | Critical => 75 <=? score
  end.

(** A record whose detector entries are scanned: analyzed, with signals. *)
Definition scanned (case : CaseDict) : bool :=
  String.eqb (status case) "analyzed" && Signal.signals_truthy (signals case).

(** A record whose [detector_breakdown] is [items] without the values that
    are not dictionaries. *)
Definition is_dict (item : string * DetectorData) : bool :=
  match snd item with DetDict _ => true | DetNotDict => false end.

Definition drop_malformed (case : CaseDict) : CaseDict :=
  {| case_id := case_id case;
     status := status case;
     risk_score := risk_score case;
     signals :=
       match signals case with
       | Some sg =>
           Some {| detector_breakdown :=
                     match detector_breakdown sg with
                     | Some items => Some (List.filter is_dict items)
                     | None => None
                     end;
                   other_keys := other_keys sg |}
       | None => None
       end;
     created_at := created_at case |}.

(** * Properties *)

(** ** The cache store *)

Section CacheFacts.
Implicit Types (c : SimpleCache.t) (key prefix : string) (e : CacheEntry).

Lemma Qgtb_true (x y : Q) : Qgtb x y = true <-> (y < x)%Q.
Proof.
  unfold Qgtb. split.
  - destruct (x ?= y)%Q eqn:E; try discriminate. intros _. now apply Qgt_alt.
  - intros H. apply Qgt_alt in H. now rewrite H.
Qed.

Lemma Qgtb_false (x y : Q) : Qgtb x y = false <-> (x <= y)%Q.
Proof.
  unfold Qgtb. split.
  - intros H. apply Qle_alt. intros E. rewrite E in H. discriminate.
  - intros H. apply Qle_alt in H.
    destruct (x ?= y)%Q eqn:E; try reflexivity. now elim H.
Qed.

Lemma get_miss c key now :
  c !! key = None -> SimpleCache.get now key c = (PyNone, c).
Proof. intros H. unfold SimpleCache.get. now rewrite H. Qed.

Lemma get_fresh c key e now :
  c !! key = Some e -> (now <= expires_at e)%Q ->
  SimpleCache.get now key c = (value e, c).
Proof.
  intros H Hle. unfold SimpleCache.get. rewrite H.
  apply Qgtb_false in Hle. now rewrite Hle.
Qed.

Lemma get_expired c key e now :
  c !! key = Some e -> (expires_at e < now)%Q ->
  SimpleCache.get now key c = (PyNone, delete key c).
Proof.
  intros H Hlt. unfold SimpleCache.get. rewrite H.
  apply Qgtb_true in Hlt. now rewrite Hlt.
Qed.

(** Whatever the clock says, [get] of an entry holding [None] is [None]. *)
Lemma get_None_value c key e now :
  c !! key = Some e -> value e = PyNone ->
  fst (SimpleCache.get now key c) = PyNone.
Proof.
  intros H Hv. unfold SimpleCache.get. rewrite H.
  destruct (Qgtb now (expires_at e)); simpl; auto.
Qed.

Lemma fold_left_delete (keys : list string) c :
  fold_left (fun m k => delete k m) keys c = foldr delete c keys.
Proof.
  revert c. induction keys as [|k keys IH]; intros c; simpl; [reflexivity|].
  rewrite IH. symmetry. apply delete_foldr_delete.
Qed.

Lemma elem_of_keys_to_remove prefix c key :
  key ∈ SimpleCache.keys_to_remove prefix c <->
  String.prefix prefix key = true /\ is_Some (c !! key).
Proof.
  unfold SimpleCache.keys_to_remove.
  rewrite list_elem_of_In, filter_In, in_map_iff. split.
  - intros [[[k e] [Hk Hin]] Hp]. simpl in Hk. subst k. split; [assumption|].
    exists e. apply elem_of_map_to_list. now apply list_elem_of_In.
  - intros [Hp [e He]]. split; [|assumption].
    exists (key, e). split; [reflexivity|].
    apply list_elem_of_In. now apply elem_of_map_to_list.
Qed.

End CacheFacts.

(** C1 (as amended).  For every entry, once the clock reads a time strictly
    greater than its [expires_at], [get] returns [None] and removes the
    entry: the key is no longer in the store, and every later [get] of the
    key, at any time, returns [None] too. *)
Theorem get_after_expiry_absent_and_removed :
  forall (c : SimpleCache.t) (key : string) (e : CacheEntry) (now : Q),
    c !! key = Some e ->
    (expires_at e < now)%Q ->
    SimpleCache.get now key c = (PyNone, delete key c) /\
    snd (SimpleCache.get now key c) !! key = None /\
    (forall key', key' <> key ->
       snd (SimpleCache.get now key c) !! key' = c !! key') /\
    (forall later, SimpleCache.get later key (snd (SimpleCache.get now key c))
                   = (PyNone, delete key c)).
Proof.
  intros c key e now Hin Hlt.
  rewrite (get_expired c key e now Hin Hlt). simpl.
  split; [reflexivity|]. split; [apply lookup_delete_eq|]. split.
  - intros key' Hne. apply lookup_delete_ne. congruence.
  - intros later. apply get_miss. apply lookup_delete_eq.
Qed.

Lemma get_after_expiry_witness :
  let e := {| value := PyInt 1; expires_at := 100 |} in
  let c : SimpleCache.t := <["cases:u1" := e]> ∅ in
  c !! "cases:u1" = Some e /\
  (expires_at e < 101)%Q /\
  SimpleCache.get 101 "cases:u1" c = (PyNone, delete "cases:u1" c).
Proof.
  intros e c.
  assert (Hin : c !! "cases:u1" = Some e) by (vm_compute; reflexivity).
  assert (Hlt : (expires_at e < 101)%Q) by (vm_compute; reflexivity).
  split; [exact Hin|]. split; [exact Hlt|].
  exact (proj1 (get_after_expiry_absent_and_removed c "cases:u1" e 101 Hin Hlt)).
Defined.

(** C1 (as stated) fails when the clock reads exactly [expires_at]: the
    comparison of [get] is strict, so the value is still returned and the
    entry stays in the store. *)
Lemma get_at_expires_at_returns_value :
  ~ (forall (c : SimpleCache.t) (key : string) (e : CacheEntry) (now : Q),
       c !! key = Some e ->
       (expires_at e <= now)%Q ->
       fst (SimpleCache.get now key c) = PyNone /\
       snd (SimpleCache.get now key c) !! key = None).
Proof.
  intros H.
  pose (e := {| value := PyInt 1; expires_at := 100 |}).
  destruct (H (<["cases:u1" := e]> ∅) "cases:u1" e 100%Q) as [Hv _].
  - apply lookup_insert_eq.
  - apply Qle_refl.
  - unfold SimpleCache.get in Hv. rewrite lookup_insert_eq in Hv.
    simpl in Hv. discriminate Hv.
Qed.

(** C9.  [invalidate_prefix] removes exactly the entries whose key starts
    with the prefix: such a key is absent afterwards, and any other key is
    bound to the entry it was bound to before (same value, same expiration),
    or is absent if it was absent. *)
Theorem invalidate_prefix_lookup :
  forall (c : SimpleCache.t) (prefix key : string),
    SimpleCache.invalidate_prefix prefix c !! key =
    if String.prefix prefix key then None else c !! key.
Proof.
  intros c prefix key. unfold SimpleCache.invalidate_prefix.
  rewrite fold_left_delete.
  destruct (String.prefix prefix key) eqn:Hp.
  - destruct (c !! key) as [e|] eqn:He.
    + apply lookup_foldr_delete. apply elem_of_keys_to_remove.
      split; [assumption|]. rewrite He. now exists e.
    + rewrite lookup_foldr_delete_not_elem_of; [assumption|].
      intros Hin. apply elem_of_keys_to_remove in Hin.
      destruct Hin as [_ [e' He']]. congruence.
  - apply lookup_foldr_delete_not_elem_of.
    intros Hin. apply elem_of_keys_to_remove in Hin.
    destruct Hin as [Hp' _]. congruence.
Qed.

(** C3.  When the awaited mutation returns, each of the two mutating
    endpoints ends with the response body, and the cache it leaves is the one
    it resumed with after [invalidate("cases:" + user_id)]: it holds no entry
    for that key, so a [get] of the key at any time is a miss. *)
Theorem mutation_endpoints_invalidate_cases_key :
  forall (A : Type) (user_id : string) (result : A) (c : SimpleCache.t),
    let key := "cases:" ++ user_id in
    (Cases.upload_case_document user_id (Returns result) c
       = (Cases.Done (Body result), SimpleCache.invalidate key c) /\
     Cases.analyze_case user_id (Returns result) c
       = (Cases.Done (Body result), SimpleCache.invalidate key c)) /\
    SimpleCache.invalidate key c !! key = None /\
    (forall now, SimpleCache.get now key (SimpleCache.invalidate key c)
                 = (PyNone, SimpleCache.invalidate key c)).
Proof.
  intros A user_id result c key. split; [split; reflexivity|].
  assert (Hk : SimpleCache.invalidate key c !! key = None)
    by apply lookup_delete_eq.
  split; [exact Hk|]. intros now. now apply get_miss.
Qed.

(** A key that is unbound, or bound to an entry holding [None], reads as
    [None]; a [set] that follows overwrites whatever [get] left. *)
Lemma get_unbound_or_None (c : SimpleCache.t) (key : string) (now : Q) :
  c !! key = None \/ (exists e, c !! key = Some e /\ value e = PyNone) ->
  exists c',
    SimpleCache.get now key c = (PyNone, c') /\
    forall t v ttl, SimpleCache.set t key v ttl c' = SimpleCache.set t key v ttl c.
Proof.
  intros [Hnone | [e [He Hv]]].
  - exists c. split; [now apply get_miss | reflexivity].
  - unfold SimpleCache.get. rewrite He.
    destruct (Qgtb now (expires_at e)).
    + exists (delete key c). split; [reflexivity|].
      intros t v ttl. unfold SimpleCache.set. apply insert_delete_eq.
    + exists c. rewrite Hv. split; reflexivity.
Qed.

(** C10.  Storing [None] cannot be told from not storing anything: after
    [set(key, None, ttl)] with [ttl > 0], [get(key)] returns [None] at any
    time, which is also what it returns for a key that is not in the store.
    Hence a caller that takes [None] for a miss calls its source and stores
    again whenever the key is unbound or holds [None]: [_get_cases_cached]
    calls the service and stores the fresh list, and a function wrapped by
    [cached] that returns [None] is called again, its [None] stored again, so
    the next call finds the store in the same situation. *)
Theorem stored_None_reads_as_miss :
  forall (c : SimpleCache.t) (key : string) (ttl : Z) (now later : Q),
    0 < ttl ->
    fst (SimpleCache.get later key (SimpleCache.set now key PyNone ttl c)) = PyNone /\
    (forall c0 : SimpleCache.t, c0 !! key = None ->
       fst (SimpleCache.get later key c0) = PyNone) /\
    (forall (c1 : SimpleCache.t) (user_id : string) (cases : list CaseObj)
            (now_get now_set : Q),
       let k := "cases:" ++ user_id in
       c1 !! k = None \/ (exists e, c1 !! k = Some e /\ value e = PyNone) ->
       Analytics._get_cases_cached now_get now_set (Returns cases) user_id c1
       = (Returns (PyCases (map Analytics.case_dict cases)),
          SimpleCache.set now_set k (PyCases (map Analytics.case_dict cases))
            Analytics.CACHE_TTL c1,
          true)) /\
    (forall (c1 : SimpleCache.t) (key_prefix func_name : string)
            (user_id : option string) (now_get now_set : Q),
       let k := (if String.eqb key_prefix "" then func_name else key_prefix)
                ++ ":" ++ match user_id with Some u => u | None => "global" end in
       c1 !! k = None \/ (exists e, c1 !! k = Some e /\ value e = PyNone) ->
       let c2 := SimpleCache.set now_set k PyNone ttl c1 in
       cached_wrapper (E := Exn) ttl key_prefix func_name user_id now_get now_set
         (Returns PyNone) c1
       = (Returns PyNone, c2, true) /\
       (exists e, c2 !! k = Some e /\ value e = PyNone)).
Proof.
  intros c key ttl now later _. split; [|split; [|split]].
  - apply (get_None_value _ key {| value := PyNone;
                                   expires_at := (now + inject_Z ttl)%Q |}).
    + apply lookup_insert_eq.
    + reflexivity.
  - intros c0 H0. now rewrite get_miss.
  - intros c1 user_id cases now_get now_set k Hk.
    destruct (get_unbound_or_None c1 k now_get Hk) as [c' [Hget Hset]].
    unfold Analytics._get_cases_cached. fold k. rewrite Hget, Hset. reflexivity.
  - intros c1 key_prefix func_name user_id now_get now_set k Hk c2.
    destruct (get_unbound_or_None c1 k now_get Hk) as [c' [Hget Hset]].
    split.
    + unfold cached_wrapper. fold k. rewrite Hget, Hset. reflexivity.
    + eexists. split; [apply lookup_insert_eq | reflexivity].
Qed.

Lemma stored_None_reads_as_miss_witness :
  0 < 30 /\
  fst (SimpleCache.get 5 "cases:u1" (SimpleCache.set 0 "cases:u1" PyNone 30 ∅))
  = PyNone.
Proof.
  split; [lia|].
  exact (proj1 (stored_None_reads_as_miss ∅ "cases:u1" 30 0 5 ltac:(lia))).
Defined.

(** ** Risk distribution *)

Ltac case_cmp :=
  repeat match goal with
    | |- context [?a >=? ?b] => rewrite (Z.geb_leb a b)
    | |- context [?a >? ?b] => rewrite (Z.gtb_ltb a b)
    | |- context [?a <=? ?b] => destruct (Z.leb_spec a b)
    | |- context [?a <? ?b] => destruct (Z.ltb_spec a b)
    end.

Section RiskFacts.
Import Analytics.

Lemma risk_step_not_counted d scores case :
  status case <> "analyzed" \/ risk_score case = None ->
  risk_step (d, scores) case = (d, scores).
Proof.
  intros H. unfold risk_step. destruct (risk_score case) as [s|]; [|reflexivity].
  destruct (String.eqb_spec (status case) "analyzed") as [Heq|Hne]; [|reflexivity].
  destruct H as [H|H]; [contradiction | discriminate].
Qed.

Lemma risk_step_count b d scores case :
  score_in_range case ->
  bucket_count b (fst (risk_step (d, scores) case))
  = bucket_count b d + (if scored_in b case then 1 else 0).
Proof.
  intros Hr. unfold risk_step, scored_in.
  destruct (risk_score case) as [s|] eqn:Hs.
  - destruct (String.eqb_spec (status case) "analyzed") as [Heq|Hne].
    + specialize (Hr s Heq Hs).
      destruct b; unfold in_bucketb; case_cmp; simpl; lia.
    + simpl. lia.
  - rewrite andb_false_r. simpl. lia.
Qed.

Lemma risk_loop_count b cases :
  Forall score_in_range cases ->
  forall d scores,
    bucket_count b (fst (fold_left risk_step cases (d, scores)))
    = bucket_count b d + Z.of_nat (length (List.filter (scored_in b) cases)).
Proof.
  induction 1 as [|case cases Hc _ IH]; intros d scores; [simpl; lia|].
  cbn [fold_left List.filter].
  pose proof (risk_step_count b d scores case Hc) as Hone.
  destruct (risk_step (d, scores) case) as [d1 scores1].
  rewrite IH. cbn [fst] in Hone. rewrite Hone.
  destruct (scored_in b case); cbn [length]; lia.
Qed.

Lemma in_bucket_unique b b' s : in_bucket b s -> in_bucket b' s -> b' = b.
Proof. destruct b, b'; simpl; intros; try reflexivity; lia. Qed.

End RiskFacts.

(** C4.  One iteration of the risk-distribution loop on a record that is
    analyzed and has a score in [0, 100] increments exactly one bucket, the
    one whose range (low [0,25), medium [25,50), high [50,75), critical
    [75,100]) holds the score, a boundary score falling in the higher bucket;
    on a record that is not analyzed or has no score it leaves the four
    counters as they were.  Hence, over records whose contributing scores lie
    in [0, 100], each counter of the result is the number of analyzed records
    with a score in the range of its bucket. *)
Theorem risk_distribution_buckets :
  forall (d : Analytics.Distribution) (scores : list Z) (case : CaseDict),
    let d' := fst (Analytics.risk_step (d, scores) case) in
    (forall s, status case = "analyzed" -> risk_score case = Some s ->
       0 <= s <= 100 ->
       exists b, in_bucket b s /\ incremented b d d' /\
                 (forall b', in_bucket b' s -> b' = b)) /\
    (status case <> "analyzed" \/ risk_score case = None -> d' = d) /\
    (in_bucket Medium 25 /\ in_bucket High 50 /\ in_bucket Critical 75) /\
    (forall (cases : list CaseDict) (b : Bucket),
       Forall score_in_range cases ->
       bucket_count b (Analytics.distribution (Analytics.get_risk_distribution cases))
       = Z.of_nat (length (List.filter (scored_in b) cases))).
Proof.
  intros d scores case d'. split; [|split; [|split]].
  - intros s Hst Hs Hr.
    assert (Hrange : score_in_range case).
    { intros s' _ Hs'. congruence. }
    assert (Hb : exists b, in_bucket b s).
    { destruct (Z_lt_le_dec s 25); [exists Low; simpl; lia|].
      destruct (Z_lt_le_dec s 50); [exists Medium; simpl; lia|].
      destruct (Z_lt_le_dec s 75); [exists High; simpl; lia|].
      exists Critical; simpl; lia. }
    destruct Hb as [b Hb]. exists b. split; [exact Hb|]. split.
    + intros b'. subst d'. rewrite (risk_step_count b' d scores case Hrange).
      f_equal. unfold scored_in. rewrite Hst, Hs. simpl.
      destruct b, b'; simpl in Hb |- *; case_cmp; simpl; lia.
    + intros b' Hb'. exact (in_bucket_unique b b' s Hb Hb').
  - intros H. subst d'. now rewrite risk_step_not_counted.
  - simpl. lia.
  - intros cases b Hall. unfold Analytics.get_risk_distribution, Analytics.risk_loop.
    pose proof (risk_loop_count b cases Hall
                  {| Analytics.low := 0; Analytics.medium := 0;
                     Analytics.high := 0; Analytics.critical := 0 |} []) as Hcount.
    destruct (fold_left Analytics.risk_step cases _) as [dd ss].
    simpl in Hcount |- *. rewrite Hcount. destruct b; simpl; lia.
Qed.

Lemma risk_distribution_buckets_witness :
  let d := {| Analytics.low := 0; Analytics.medium := 0;
              Analytics.high := 0; Analytics.critical := 0 |} in
  let case := case_with_score "c1" "analyzed" 75 None "2024-05-01" in
  status case = "analyzed" /\
  risk_score case = Some 75 /\
  0 <= 75 <= 100 /\
  exists b, in_bucket b 75 /\
            incremented b d (fst (Analytics.risk_step (d, []) case)) /\
            (forall b', in_bucket b' 75 -> b' = b).
Proof.
  intros d case.
  assert (Hst : status case = "analyzed") by reflexivity.
  assert (Hs : risk_score case = Some 75) by reflexivity.
  assert (Hr : 0 <= 75 <= 100) by lia.
  split; [exact Hst|]. split; [exact Hs|]. split; [exact Hr|].
  exact (proj1 (risk_distribution_buckets d [] case) 75 Hst Hs Hr).
Defined.

(** C5.  On the three records (analyzed, 10), (analyzed, 80), (pending, 90),
    whatever their other fields, the result is the distribution
    {low: 1, medium: 0, high: 0, critical: 1}, total_analyzed 2,
    average_score 45.0, min_score 10 and max_score 80. *)
Theorem risk_distribution_example :
  forall (id1 id2 id3 : string) (sig1 sig2 sig3 : option Signals)
         (t1 t2 t3 : string),
    Analytics.get_risk_distribution
      [case_with_score id1 "analyzed" 10 sig1 t1;
       case_with_score id2 "analyzed" 80 sig2 t2;
       case_with_score id3 "pending" 90 sig3 t3]
    = {| Analytics.distribution :=
           {| Analytics.low := 1; Analytics.medium := 0;
              Analytics.high := 0; Analytics.critical := 1 |};
         Analytics.total_analyzed := 2;
         Analytics.average_score := PyNumFloat 45;
         Analytics.min_score := 10;
         Analytics.max_score := 80 |}.
Proof. intros. vm_compute. reflexivity. Qed.

(** ** Signal breakdown *)

Section SignalFacts.
Import Signal.

(** *** The loops scan the entries *)

Lemma detector_items_entries cid items acc :
  fold_left (detector_step cid) items acc
  = fold_left entry_step (entries_of_items cid items) acc.
Proof.
  revert acc. induction items as [|[n data] items IH]; intros acc; [reflexivity|].
  cbn [fold_left]. rewrite IH. unfold entries_of_items. cbn [flat_map snd fst].
  rewrite fold_left_app. f_equal.
  destruct data as [[s|]|]; reflexivity.
Qed.

Lemma case_step_entries acc case :
  case_step acc case = fold_left entry_step (entries_of_case case) acc.
Proof.
  unfold case_step, entries_of_case. rewrite <- negb_andb.
  destruct (String.eqb (status case) "analyzed" && signals_truthy (signals case));
    [|reflexivity].
  apply detector_items_entries.
Qed.

Lemma signal_loop_entries cases :
  signal_loop cases = fold_left entry_step (entries cases) [].
Proof.
  unfold signal_loop, entries. generalize (@nil (string * Stats)).
  induction cases as [|case cases IH]; intros acc; [reflexivity|].
  cbn [fold_left flat_map]. rewrite fold_left_app, IH. f_equal.
  apply case_step_entries.
Qed.

(** *** First occurrences *)

Lemma existsb_filter_ne (n a : string) (l : list string) :
  String.eqb n a = false ->
  existsb (String.eqb n) (List.filter (fun m => negb (String.eqb a m)) l)
  = existsb (String.eqb n) l.
Proof.
  intros Hne. induction l as [|m l IH]; [reflexivity|].
  cbn [List.filter existsb].
  destruct (String.eqb_spec a m) as [<-|Ham]; cbn [negb].
  - rewrite Hne. exact IH.
  - cbn [existsb]. now rewrite IH.
Qed.

Lemma existsb_first_seen (n : string) (l : list string) :
  existsb (String.eqb n) (first_seen l) = existsb (String.eqb n) l.
Proof.
  induction l as [|a l IH]; [reflexivity|].
  cbn [first_seen existsb].
  destruct (String.eqb n a) eqn:Hna; [reflexivity|].
  cbn [orb]. rewrite existsb_filter_ne by assumption. exact IH.
Qed.

Lemma first_seen_snoc (l : list string) (n : string) :
  first_seen (l ++ [n])%list
  = if existsb (String.eqb n) l then first_seen l else (first_seen l ++ [n])%list.
Proof.
  induction l as [|a l IH]; [reflexivity|].
  cbn [app first_seen existsb]. rewrite IH.
  destruct (String.eqb_spec n a) as [->|Hna]; cbn [orb].
  - destruct (existsb (String.eqb a) l); [reflexivity|].
    rewrite List.filter_app. cbn [List.filter]. rewrite String.eqb_refl. cbn [negb].
    now rewrite app_nil_r.
  - destruct (existsb (String.eqb n) l); [reflexivity|].
    rewrite List.filter_app. cbn [List.filter].
    destruct (String.eqb_spec a n) as [->|_]; [contradiction|]. reflexivity.
Qed.

(** *** What one more entry does to the expected statistics *)

Lemma firstn_snoc_cap {A : Type} (n : nat) (l : list A) (x : A) :
  firstn n (l ++ [x])%list
  = if (length (firstn n l) <? n)%nat then (firstn n l ++ [x])%list else firstn n l.
Proof.
  rewrite firstn_app, length_firstn.
  destruct (Nat.ltb_spec (Nat.min n (length l)) n) as [Hlt|Hge].
  - assert (Hl : (length l < n)%nat) by lia.
    rewrite (firstn_all2 (n := n) l) by lia.
    replace (n - length l)%nat with (S (n - length l - 1)) by lia.
    cbn [firstn]. now rewrite firstn_nil.
  - replace (n - length l)%nat with 0%nat by lia. cbn [firstn].
    apply app_nil_r.
Qed.

Lemma expected_stats_snoc es e d :
  expected_stats (es ++ [e]) d
  = if triggers d e
    then trigger (e_case e) (e_score e) (expected_stats es d)
    else expected_stats es d.
Proof.
  unfold expected_stats, triggering. rewrite List.filter_app. cbn [List.filter].
  destruct (triggers d e).
  - unfold trigger. cbn [name triggered_count total_score max_score case_ids].
    rewrite !map_app, length_app. cbn [map length].
    rewrite !fold_left_app, firstn_snoc_cap. cbn [fold_left].
    f_equal; [lia|].
    destruct (Nat.ltb_spec (length (firstn 10 (map e_case (List.filter (triggers d) es)))) 10);
      destruct (Z.ltb_spec
                  (Z.of_nat (length (firstn 10 (map e_case (List.filter (triggers d) es)))))
                  10); try reflexivity; lia.
  - now rewrite app_nil_r.
Qed.

Lemma triggering_unseen es d :
  existsb (String.eqb d) (map e_name es) = false -> triggering d es = [].
Proof.
  unfold triggering. induction es as [|e es IH]; [reflexivity|].
  cbn [map existsb List.filter]. intros H. apply orb_false_elim in H.
  destruct H as [Hd Hes]. unfold triggers at 1. rewrite Hd. cbn [andb]. auto.
Qed.

Lemma expected_stats_unseen es d :
  existsb (String.eqb d) (map e_name es) = false ->
  expected_stats es d = new_stats d.
Proof.
  intros H. unfold expected_stats. now rewrite (triggering_unseen es d H).
Qed.

(** *** Dictionary operations on a dictionary given by its keys *)

Lemma dict_mem_map {V : Type} (g : string -> V) (k : string) (keys : list string) :
  dict_mem k (map (fun d => (d, g d)) keys) = existsb (String.eqb k) keys.
Proof.
  unfold dict_mem. induction keys as [|a keys IH]; [reflexivity|].
  cbn [map existsb fst]. now rewrite IH.
Qed.

Lemma dict_update_map {V : Type} (g : string -> V) (f : V -> V) (k : string)
    (keys : list string) :
  dict_update k f (map (fun d => (d, g d)) keys)
  = map (fun d => (d, if String.eqb k d then f (g d) else g d)) keys.
Proof.
  unfold dict_update. rewrite map_map. apply map_ext. intros d. cbn [fst snd].
  now destruct (String.eqb k d).
Qed.

(** *** The loop computes the expected statistics, in first-seen order *)

Lemma entry_step_expected es e :
  entry_step (map (fun d => (d, expected_stats es d)) (first_seen (map e_name es))) e
  = map (fun d => (d, expected_stats (es ++ [e]) d))
      (first_seen (map e_name (es ++ [e]))).
Proof.
  assert (Hpos : (e_score e >? 0) = true ->
                 forall d, (if String.eqb (e_name e) d
                            then trigger (e_case e) (e_score e) (expected_stats es d)
                            else expected_stats es d)
                           = expected_stats (es ++ [e]) d).
  { intros Hs d. rewrite expected_stats_snoc. unfold triggers.
    rewrite (String.eqb_sym d (e_name e)).
    rewrite Z.gtb_ltb in Hs. rewrite Hs, andb_true_r. reflexivity. }
  assert (Hneg : (e_score e >? 0) = false ->
                 forall d, expected_stats es d = expected_stats (es ++ [e]) d).
  { intros Hs d. rewrite expected_stats_snoc. unfold triggers.
    rewrite Z.gtb_ltb in Hs. rewrite Hs, andb_false_r. reflexivity. }
  rewrite map_app. cbn [map]. rewrite first_seen_snoc.
  unfold entry_step, detector_step.
  rewrite dict_mem_map, existsb_first_seen.
  destruct (existsb (String.eqb (e_name e)) (map e_name es)) eqn:Hseen.
  - destruct (e_score e >? 0) eqn:Hs.
    + rewrite dict_update_map. apply map_ext. intros d. now rewrite Hpos.
    + apply map_ext. intros d. now rewrite Hneg.
  - unfold dict_add. rewrite map_app. cbn [map].
    rewrite <- (expected_stats_unseen es (e_name e) Hseen).
    destruct (e_score e >? 0) eqn:Hs.
    + unfold dict_update. rewrite map_app. cbn [map fst snd].
      rewrite String.eqb_refl. fold (dict_update (e_name e)
        (trigger (e_case e) (e_score e))
        (map (fun d => (d, expected_stats es d)) (first_seen (map e_name es)))).
      rewrite dict_update_map. f_equal.
      * apply map_ext. intros d. now rewrite Hpos.
      * specialize (Hpos eq_refl (e_name e)). rewrite String.eqb_refl in Hpos.
        now rewrite Hpos.
    + f_equal.
      * apply map_ext. intros d. now rewrite Hneg.
      * now rewrite Hneg.
Qed.

Lemma fold_entries_expected es :
  fold_left entry_step es []
  = map (fun d => (d, expected_stats es d)) (first_seen (map e_name es)).
Proof.
  induction es as [|e es IH] using rev_ind; [reflexivity|].
  rewrite fold_left_app. cbn [fold_left]. rewrite IH.
  apply entry_step_expected.
Qed.

Lemma signal_loop_expected cases :
  signal_loop cases
  = map (fun d => (d, expected_stats (entries cases) d)) (detectors_seen cases).
Proof.
  rewrite signal_loop_entries. apply fold_entries_expected.
Qed.

End SignalFacts.

(** *** [sorted(..., reverse=True)] *)

Section SortedFacts.
Context {A : Type} (key : A -> Z).

Local Abbreviation desc := (descending key).

Lemma In_insert_reverse x l z :
  In z (insert_reverse key x l) <-> z = x \/ In z l.
Proof.
  induction l as [|y l IH]; cbn [insert_reverse].
  - cbn [In]. intuition congruence.
  - destruct (key y <=? key x); cbn [In]; [intuition congruence|].
    rewrite IH. intuition congruence.
Qed.

Lemma In_sorted_reverse l z : In z (sorted_reverse key l) <-> In z l.
Proof.
  induction l as [|x l IH]; [reflexivity|].
  cbn [sorted_reverse fold_right]. rewrite In_insert_reverse.
  fold (sorted_reverse key l). rewrite IH. cbn [In]. intuition congruence.
Qed.

Lemma insert_reverse_sorted x l :
  StronglySorted desc l -> StronglySorted desc (insert_reverse key x l).
Proof.
  induction 1 as [|y l Hl IH Hy]; cbn [insert_reverse].
  - constructor; constructor.
  - destruct (Z.leb_spec (key y) (key x)) as [Hle|Hgt].
    + constructor; [constructor; assumption|].
      constructor; [exact Hle|].
      rewrite List.Forall_forall in Hy |- *. intros z Hz.
      specialize (Hy z Hz). unfold descending in *. lia.
    + constructor; [exact IH|].
      rewrite List.Forall_forall in Hy |- *. intros z Hz.
      apply In_insert_reverse in Hz. destruct Hz as [->|Hz].
      * unfold descending. lia.
      * exact (Hy z Hz).
Qed.

Lemma sorted_reverse_sorted l : StronglySorted desc (sorted_reverse key l).
Proof.
  induction l as [|x l IH]; [constructor|].
  cbn [sorted_reverse fold_right]. now apply insert_reverse_sorted.
Qed.

(** Stability: among the elements of one key, the order is the original. *)
Lemma filter_insert_reverse (k : Z) x l :
  List.filter (fun a => key a =? k) (insert_reverse key x l)
  = if key x =? k then x :: List.filter (fun a => key a =? k) l
    else List.filter (fun a => key a =? k) l.
Proof.
  induction l as [|y l IH]; cbn [insert_reverse]; [reflexivity|].
  destruct (Z.leb_spec (key y) (key x)) as [Hle|Hgt]; [reflexivity|].
  cbn [List.filter]. rewrite IH.
  destruct (Z.eqb_spec (key x) k) as [Hx|Hx]; [|reflexivity].
  destruct (Z.eqb_spec (key y) k) as [Hy|Hy]; [lia|reflexivity].
Qed.

Lemma filter_sorted_reverse (k : Z) l :
  List.filter (fun a => key a =? k) (sorted_reverse key l)
  = List.filter (fun a => key a =? k) l.
Proof.
  induction l as [|x l IH]; [reflexivity|].
  cbn [sorted_reverse fold_right]. rewrite filter_insert_reverse.
  fold (sorted_reverse key l). rewrite IH. reflexivity.
Qed.

End SortedFacts.

Lemma filter_map_comm {A B : Type} (f : A -> B) (p : B -> bool) (l : list A) :
  List.filter p (map f l) = map f (List.filter (fun a => p (f a)) l).
Proof.
  induction l as [|a l IH]; [reflexivity|].
  cbn [map List.filter]. rewrite IH. now destruct (p (f a)).
Qed.

(** The statistics before sorting, and where an output element comes from. *)
Lemma breakdown_unsorted cases :
  map Signal.finish (dict_values (Signal.signal_loop cases))
  = map (fun d => Signal.finish (expected_stats (entries cases) d)) (detectors_seen cases).
Proof.
  rewrite signal_loop_expected. unfold dict_values. now rewrite !map_map.
Qed.

Lemma In_breakdown cases st :
  In st (Signal.get_signal_breakdown cases) ->
  st = Signal.finish (expected_stats (entries cases) (Signal.out_name st)).
Proof.
  unfold Signal.get_signal_breakdown. rewrite In_sorted_reverse, breakdown_unsorted.
  rewrite in_map_iff. intros [d [<- _]]. reflexivity.
Qed.

Lemma entries_app cases more :
  entries (cases ++ more) = (entries cases ++ entries more)%list.
Proof. apply flat_map_app. Qed.

(** C6.  A detector is counted as triggered for a case only when its score is
    strictly greater than 0: the triggered_count of every output element is
    the number of entries of its detector with a score [> 0].  In particular,
    for two analyzed cases where d1 scores 5 and one where d1 scores 0, in
    any of the three scanning orders, the output is the single element d1
    with triggered_count 2, avg_score 5.0 (and max_score 5) and case_ids
    holding exactly the ids of the two triggering cases. *)
Theorem signal_breakdown_triggered_only_above_zero :
  forall (cases : list CaseDict) (st : Signal.SignalStat),
    In st (Signal.get_signal_breakdown cases) ->
    Signal.out_triggered_count st
    = Z.of_nat (length (triggering (Signal.out_name st) (entries cases))) /\
    (forall (ida idb idz : string) (ra rb rz : option Z) (ta tb tz : string)
            (oa ob oz : list string),
       let a := case_with_detector ida "d1" 5 ra ta oa in
       let b := case_with_detector idb "d1" 5 rb tb ob in
       let z := case_with_detector idz "d1" 0 rz tz oz in
       let d1 := {| Signal.out_name := "d1";
                    Signal.out_triggered_count := 2;
                    Signal.out_max_score := 5;
                    Signal.out_case_ids := [ida; idb];
                    Signal.out_avg_score := PyNumFloat 5 |} in
       Signal.get_signal_breakdown [a; b; z] = [d1] /\
       Signal.get_signal_breakdown [a; z; b] = [d1] /\
       Signal.get_signal_breakdown [z; a; b] = [d1]).
Proof.
  intros cases st Hin. split.
  - rewrite (In_breakdown cases st Hin) at 1. reflexivity.
  - intros. repeat split; vm_compute; reflexivity.
Qed.

Lemma signal_breakdown_triggered_witness :
  let a := case_with_detector "case-1" "d1" 5 None "2024-05-01" [] in
  let z := case_with_detector "case-2" "d1" 0 None "2024-05-02" [] in
  let st := {| Signal.out_name := "d1";
               Signal.out_triggered_count := 1;
               Signal.out_max_score := 5;
               Signal.out_case_ids := ["case-1"];
               Signal.out_avg_score := PyNumFloat 5 |} in
  In st (Signal.get_signal_breakdown [a; z]) /\
  Signal.out_triggered_count st
  = Z.of_nat (length (triggering (Signal.out_name st) (entries [a; z]))).
Proof.
  intros a z st.
  assert (Hin : In st (Signal.get_signal_breakdown [a; z])).
  { vm_compute. left. reflexivity. }
  split; [exact Hin|].
  exact (proj1 (signal_breakdown_triggered_only_above_zero [a; z] st Hin)).
Defined.

(** C7.  For every list of records, the case_ids of every output element
    has at most 10 elements and is the list of the first 10 case ids, in
    scanning order, of the entries that trigger its detector; and scanning
    more records only appends to it, nothing at all once it holds 10 ids. *)
Theorem signal_breakdown_case_ids_capped :
  forall (cases : list CaseDict) (st : Signal.SignalStat),
    In st (Signal.get_signal_breakdown cases) ->
    (length (Signal.out_case_ids st) <= 10)%nat /\
    Signal.out_case_ids st
    = firstn 10 (map e_case (triggering (Signal.out_name st) (entries cases))) /\
    (forall (more : list CaseDict) (st' : Signal.SignalStat),
       In st' (Signal.get_signal_breakdown (cases ++ more)) ->
       Signal.out_name st' = Signal.out_name st ->
       exists rest,
         Signal.out_case_ids st' = (Signal.out_case_ids st ++ rest)%list /\
         (length (Signal.out_case_ids st) = 10%nat -> rest = [])).
Proof.
  intros cases st Hin.
  assert (Hids : Signal.out_case_ids st
                 = firstn 10 (map e_case (triggering (Signal.out_name st) (entries cases)))).
  { rewrite (In_breakdown cases st Hin) at 1. reflexivity. }
  split; [|split].
  - rewrite Hids, length_firstn. lia.
  - exact Hids.
  - intros more st' Hin' Hname.
    assert (Hids' : Signal.out_case_ids st'
              = firstn 10 (map e_case (triggering (Signal.out_name st')
                                         (entries (cases ++ more))))).
    { rewrite (In_breakdown _ st' Hin') at 1. reflexivity. }
    rewrite Hname, entries_app in Hids'. unfold triggering in Hids'.
    rewrite List.filter_app, map_app, firstn_app in Hids'.
    fold (triggering (Signal.out_name st) (entries cases)) in Hids'.
    rewrite <- Hids in Hids'.
    eexists. split; [exact Hids'|].
    intros Hfull. rewrite Hids, length_firstn in Hfull.
    replace (10 - _)%nat with 0%nat by lia. reflexivity.
Qed.

Lemma signal_breakdown_case_ids_witness :
  let cases :=
    map (fun cid => case_with_detector cid "d1" 5 None "2024-05-01" [])
      ["c01"; "c02"; "c03"; "c04"; "c05"; "c06"; "c07"; "c08"; "c09"; "c10";
       "c11"; "c12"] in
  let st := {| Signal.out_name := "d1";
               Signal.out_triggered_count := 12;
               Signal.out_max_score := 5;
               Signal.out_case_ids :=
                 ["c01"; "c02"; "c03"; "c04"; "c05"; "c06"; "c07"; "c08"; "c09"; "c10"];
               Signal.out_avg_score := PyNumFloat 5 |} in
  In st (Signal.get_signal_breakdown cases) /\
  (length (Signal.out_case_ids st) <= 10)%nat.
Proof.
  intros cases st.
  assert (Hin : In st (Signal.get_signal_breakdown cases)).
  { vm_compute. left. reflexivity. }
  split; [exact Hin|].
  exact (proj1 (signal_breakdown_case_ids_capped cases st Hin)).
Defined.

Lemma insert_reverse_Permutation {A : Type} (key : A -> Z) (x : A) (l : list A) :
  Permutation (insert_reverse key x l) (x :: l).
Proof.
  induction l as [|y l IH]; cbn [insert_reverse]; [reflexivity|].
  destruct (key y <=? key x); [reflexivity|].
  rewrite IH. apply perm_swap.
Qed.

Lemma sorted_reverse_Permutation {A : Type} (key : A -> Z) (l : list A) :
  Permutation (sorted_reverse key l) l.
Proof.
  induction l as [|x l IH]; [reflexivity|].
  cbn [sorted_reverse fold_right]. rewrite insert_reverse_Permutation.
  now apply perm_skip.
Qed.

(** C8.  For every list of records, the output is in descending order of
    triggered_count, it lists each detector seen exactly once, and for every
    count the detectors of the output with that count appear in the order in
    which they were first seen while scanning the records (a detector is
    seen at its first dictionary-valued entry in an analyzed case with
    signals, whatever the score of that entry). *)
Theorem signal_breakdown_sorted_stable :
  forall (cases : list CaseDict),
    let out := Signal.get_signal_breakdown cases in
    StronglySorted (descending Signal.out_triggered_count) out /\
    Permutation (map Signal.out_name out) (detectors_seen cases) /\
    (forall k : Z,
       map Signal.out_name
         (List.filter (fun st => Signal.out_triggered_count st =? k) out)
       = List.filter
           (fun d => Z.of_nat (length (triggering d (entries cases))) =? k)
           (detectors_seen cases)).
Proof.
  intros cases out. subst out. unfold Signal.get_signal_breakdown.
  split; [|split].
  - apply sorted_reverse_sorted.
  - rewrite sorted_reverse_Permutation, breakdown_unsorted, map_map.
    cbn [Signal.finish Signal.out_name expected_stats Signal.name].
    now rewrite map_id.
  - intros k. rewrite filter_sorted_reverse, breakdown_unsorted.
    rewrite filter_map_comm, map_map.
    cbn [Signal.finish Signal.out_name Signal.out_triggered_count expected_stats
         Signal.name Signal.triggered_count].
    now rewrite map_id.
Qed.

(** * Further properties of the code *)

(** ** cache.py: SimpleCache *)

Lemma lookup_invalidate_prefix (c : SimpleCache.t) (prefix key : string) :
  SimpleCache.invalidate_prefix prefix c !! key =
  if String.prefix prefix key then None else c !! key.
Proof.
  unfold SimpleCache.invalidate_prefix. rewrite fold_left_delete.
  destruct (String.prefix prefix key) eqn:Hp.
  - apply eq_None_not_Some. intros [e He].
    apply lookup_foldr_delete_Some in He. destruct He as [Hnot He].
    apply Hnot, elem_of_keys_to_remove. split; [assumption | now exists e].
  - apply lookup_foldr_delete_not_elem_of. intros Hin.
    apply elem_of_keys_to_remove in Hin. destruct Hin as [Hp' _]. congruence.
Qed.

Lemma prefix_append (p s : string) : String.prefix p (p ++ s) = true.
Proof.
  induction p as [|a p IH]; simpl.
  - now destruct s.
  - destruct (Ascii.ascii_dec a a) as [_|Hne]; [exact IH | contradiction].
Qed.

Lemma prefix_empty (s : string) : String.prefix "" s = true.
Proof. now destruct s. Qed.

Lemma append_inj_r (p a b : string) : p ++ a = p ++ b -> a = b.
Proof.
  induction p as [|x p IH]; simpl; intros H; [exact H|].
  injection H as H. now apply IH.
Qed.

(** X1.  A value that was set is returned by [get] at any time up to and
    including its expiration [now + ttl], and that [get] leaves the store as
    it is. *)
Theorem set_then_get_returns_value :
  forall (c : SimpleCache.t) (key : string) (v : Any) (ttl : Z) (now later : Q),
    (later <= now + inject_Z ttl)%Q ->
    SimpleCache.get later key (SimpleCache.set now key v ttl c)
    = (v, SimpleCache.set now key v ttl c).
Proof.
  intros c key v ttl now later Hle.
  apply (get_fresh _ key {| value := v; expires_at := (now + inject_Z ttl)%Q |}).
  - apply lookup_insert_eq.
  - exact Hle.
Qed.

Lemma set_then_get_witness :
  (10 <= 0 + inject_Z 30)%Q /\
  SimpleCache.get 10 "cases:u1" (SimpleCache.set 0 "cases:u1" (PyInt 7) 30 ∅)
  = (PyInt 7, SimpleCache.set 0 "cases:u1" (PyInt 7) 30 ∅).
Proof.
  assert (H : (10 <= 0 + inject_Z 30)%Q) by (vm_compute; discriminate).
  split; [exact H|].
  exact (set_then_get_returns_value ∅ "cases:u1" (PyInt 7) 30 0 10 H).
Defined.

(** X2.  [set] is last-writer-wins on its key and touches no other key: a
    second [set] of the key makes the first one unobservable, and what [get]
    returns for any other key is what it returned before the [set]. *)
Theorem set_overwrites_and_frames :
  forall (c : SimpleCache.t) (key : string) (v1 v2 : Any) (ttl1 ttl2 : Z)
         (t1 t2 : Q),
    SimpleCache.set t2 key v2 ttl2 (SimpleCache.set t1 key v1 ttl1 c)
    = SimpleCache.set t2 key v2 ttl2 c /\
    (forall (other : string) (later : Q),
       other <> key ->
       fst (SimpleCache.get later other (SimpleCache.set t1 key v1 ttl1 c))
       = fst (SimpleCache.get later other c)).
Proof.
  intros c key v1 v2 ttl1 ttl2 t1 t2. split.
  - unfold SimpleCache.set. apply insert_insert_eq.
  - intros other later Hne. unfold SimpleCache.get, SimpleCache.set.
    rewrite lookup_insert_ne by congruence.
    destruct (c !! other) as [e|]; [|reflexivity].
    now destruct (Qgtb later (expires_at e)).
Qed.

Lemma set_overwrites_and_frames_witness :
  "cases:u2" <> "cases:u1" /\
  fst (SimpleCache.get 5 "cases:u2" (SimpleCache.set 0 "cases:u1" (PyInt 1) 30 ∅))
  = fst (SimpleCache.get 5 "cases:u2" ∅).
Proof.
  assert (H : "cases:u2" <> "cases:u1") by discriminate.
  split; [exact H|].
  exact (proj2 (set_overwrites_and_frames ∅ "cases:u1" (PyInt 1) (PyInt 1) 30 30 0 0)
           "cases:u2" 5%Q H).
Defined.

(** X3.  An entry set with a negative TTL is never returned: a [get] at the
    time of the [set] or later returns [None] and removes it. *)
Theorem set_negative_ttl_is_never_read :
  forall (c : SimpleCache.t) (key : string) (v : Any) (ttl : Z) (now later : Q),
    ttl < 0 ->
    (now <= later)%Q ->
    SimpleCache.get later key (SimpleCache.set now key v ttl c)
    = (PyNone, delete key c).
Proof.
  intros c key v ttl now later Httl Hle.
  rewrite (get_expired _ key {| value := v; expires_at := (now + inject_Z ttl)%Q |}).
  - unfold SimpleCache.set. now rewrite delete_insert_eq.
  - apply lookup_insert_eq.
  - cbn [expires_at].
    assert (Hneg : (inject_Z ttl < 0)%Q).
    { change 0%Q with (inject_Z 0). rewrite <- Zlt_Qlt. exact Httl. }
    lra.
Qed.

Lemma set_negative_ttl_witness :
  -5 < 0 /\ (3 <= 3)%Q /\
  SimpleCache.get 3 "k" (SimpleCache.set 3 "k" (PyInt 1) (-5) ∅)
  = (PyNone, delete "k" ∅).
Proof.
  assert (H1 : -5 < 0) by lia.
  assert (H2 : (3 <= 3)%Q) by (vm_compute; discriminate).
  split; [exact H1|]. split; [exact H2|].
  exact (set_negative_ttl_is_never_read ∅ "k" (PyInt 1) (-5) 3 3 H1 H2).
Defined.

(** X4.  [invalidate] of a key that is not in the store changes nothing and
    does not fail; in any store it is idempotent, leaves every other key
    bound as before, and makes [get] of the key a miss at any time. *)
Theorem invalidate_missing_idempotent_frame :
  forall (c : SimpleCache.t) (key : string),
    (c !! key = None -> SimpleCache.invalidate key c = c) /\
    SimpleCache.invalidate key (SimpleCache.invalidate key c)
    = SimpleCache.invalidate key c /\
    (forall other, other <> key ->
       SimpleCache.invalidate key c !! other = c !! other) /\
    (forall now, fst (SimpleCache.get now key (SimpleCache.invalidate key c)) = PyNone).
Proof.
  intros c key. unfold SimpleCache.invalidate. split; [|split; [|split]].
  - intros H. now apply delete_id.
  - apply delete_delete_eq.
  - intros other Hne. apply lookup_delete_ne. congruence.
  - intros now. rewrite get_miss; [reflexivity | apply lookup_delete_eq].
Qed.

Lemma invalidate_missing_witness :
  (∅ : SimpleCache.t) !! "cases:u1" = None /\
  SimpleCache.invalidate "cases:u1" ∅ = ∅.
Proof.
  assert (H : (∅ : SimpleCache.t) !! "cases:u1" = None) by reflexivity.
  split; [exact H|].
  exact (proj1 (invalidate_missing_idempotent_frame ∅ "cases:u1") H).
Defined.

(** X5.  [invalidate_prefix] with the empty prefix empties the store, as
    [clear] does; after either, [get] is a miss for every key at any time. *)
Theorem empty_prefix_clears :
  forall (c : SimpleCache.t),
    SimpleCache.invalidate_prefix "" c = SimpleCache.clear c /\
    (forall now key, SimpleCache.get now key (SimpleCache.clear c)
                     = (PyNone, SimpleCache.clear c)).
Proof.
  intros c. split.
  - apply map_eq. intros key.
    rewrite lookup_invalidate_prefix, prefix_empty. reflexivity.
  - intros now key. apply get_miss. reflexivity.
Qed.

(** X6.  [invalidate_prefix] is idempotent, two of them commute, and it
    subsumes [invalidate] of any key that starts with the prefix. *)
Theorem invalidate_prefix_idempotent_commutes :
  forall (c : SimpleCache.t) (p q key : string),
    SimpleCache.invalidate_prefix p (SimpleCache.invalidate_prefix p c)
    = SimpleCache.invalidate_prefix p c /\
    SimpleCache.invalidate_prefix p (SimpleCache.invalidate_prefix q c)
    = SimpleCache.invalidate_prefix q (SimpleCache.invalidate_prefix p c) /\
    (String.prefix p key = true ->
     SimpleCache.invalidate key (SimpleCache.invalidate_prefix p c)
     = SimpleCache.invalidate_prefix p c /\
     SimpleCache.invalidate_prefix p (SimpleCache.invalidate key c)
     = SimpleCache.invalidate_prefix p c).
Proof.
  intros c p q key. split; [|split].
  - apply map_eq. intros k. rewrite !lookup_invalidate_prefix.
    now destruct (String.prefix p k).
  - apply map_eq. intros k. rewrite !lookup_invalidate_prefix.
    now destruct (String.prefix p k), (String.prefix q k).
  - intros Hp. unfold SimpleCache.invalidate. split; apply map_eq; intros k.
    + rewrite lookup_delete, lookup_invalidate_prefix.
      case_decide as Hk; [subst k; now rewrite Hp | reflexivity].
    + rewrite !lookup_invalidate_prefix, lookup_delete.
      case_decide as Hk; [subst k; now rewrite Hp | reflexivity].
Qed.

Lemma invalidate_prefix_subsumes_witness :
  let c := SimpleCache.set 0 "cases:u1" (PyInt 1) 30 ∅ in
  String.prefix "cases:" "cases:u1" = true /\
  SimpleCache.invalidate "cases:u1" (SimpleCache.invalidate_prefix "cases:" c)
  = SimpleCache.invalidate_prefix "cases:" c.
Proof.
  intros c.
  assert (H : String.prefix "cases:" "cases:u1" = true) by reflexivity.
  split; [exact H|].
  exact (proj1 (proj2 (proj2 (invalidate_prefix_idempotent_commutes
                                c "cases:" "cases:" "cases:u1")) H)).
Defined.

(** X7.  [invalidate_prefix(p)] removes every key of the form [p + s]; so
    after [invalidate_prefix("cases:")] the cached cases of every user are
    gone, and the next [_get_cases_cached] of any user calls the service and
    stores what it returns. *)
Theorem invalidate_prefix_covers_every_user :
  forall (c : SimpleCache.t) (p s : string),
    SimpleCache.invalidate_prefix p c !! (p ++ s) = None /\
    (forall (user_id : string) (cases : list CaseObj) (now_get now_set : Q),
       let c' := SimpleCache.invalidate_prefix "cases:" c in
       Analytics._get_cases_cached now_get now_set (Returns cases) user_id c'
       = (Returns (PyCases (map Analytics.case_dict cases)),
          SimpleCache.set now_set ("cases:" ++ user_id)
            (PyCases (map Analytics.case_dict cases)) Analytics.CACHE_TTL c',
          true)).
Proof.
  intros c p s.
  assert (Hgone : forall p s, SimpleCache.invalidate_prefix p c !! (p ++ s) = None).
  { intros p' s'. now rewrite lookup_invalidate_prefix, prefix_append. }
  split; [apply Hgone|].
  intros user_id cases now_get now_set c'.
  unfold Analytics._get_cases_cached.
  rewrite (get_miss c' ("cases:" ++ user_id) now_get (Hgone "cases:" user_id)).
  reflexivity.
Qed.

(** X8.  [get] touches no key but its own, never binds a key that was not
    bound, and asking twice at the same time gives the same answer and the
    same store as asking once. *)
Theorem get_frame_and_idempotent :
  forall (c : SimpleCache.t) (key : string) (now : Q),
    (forall other, other <> key ->
       snd (SimpleCache.get now key c) !! other = c !! other) /\
    (forall k, c !! k = None -> snd (SimpleCache.get now key c) !! k = None) /\
    SimpleCache.get now key (snd (SimpleCache.get now key c))
    = SimpleCache.get now key c.
Proof.
  intros c key now. unfold SimpleCache.get at 1 2 4 5.
  destruct (c !! key) as [e|] eqn:He.
  - destruct (Qgtb now (expires_at e)) eqn:Hexp; cbn [snd].
    + split; [|split].
      * intros other Hne. apply lookup_delete_ne. congruence.
      * intros k Hk. rewrite lookup_delete. now case_decide.
      * apply get_miss, lookup_delete_eq.
    + split; [|split]; [reflexivity | auto |].
      unfold SimpleCache.get. now rewrite He, Hexp.
  - cbn [snd]. split; [|split]; [reflexivity | auto |].
    now apply get_miss.
Qed.

Lemma get_frame_witness :
  let c := SimpleCache.set 0 "cases:u1" (PyInt 1) 30 ∅ in
  "cases:u2" <> "cases:u1" /\
  snd (SimpleCache.get 31 "cases:u1" c) !! "cases:u2" = c !! "cases:u2".
Proof.
  intros c.
  assert (H : "cases:u2" <> "cases:u1") by discriminate.
  split; [exact H|].
  exact (proj1 (get_frame_and_idempotent c "cases:u1" 31) "cases:u2" H).
Defined.

(** ** cache.py: the decorator [cached] *)

Lemma cached_key_user_inj (key_prefix func_name : string) (u1 u2 : option string) :
  cached_key key_prefix func_name u1 = cached_key key_prefix func_name u2 ->
  match u1 with Some u => u | None => "global" end
  = match u2 with Some u => u | None => "global" end.
Proof.
  unfold cached_key. intros H.
  apply append_inj_r in H. now apply append_inj_r in H.
Qed.

(** A [get] that returns [None] leaves its key unbound or bound to [None]. *)
Lemma get_None_leaves_miss (c : SimpleCache.t) (key : string) (now : Q) :
  fst (SimpleCache.get now key c) = PyNone ->
  let c' := snd (SimpleCache.get now key c) in
  c' !! key = None \/ (exists e, c' !! key = Some e /\ value e = PyNone).
Proof.
  unfold SimpleCache.get. destruct (c !! key) as [e|] eqn:He.
  - destruct (Qgtb now (expires_at e)); cbn [fst snd]; intros Hv.
    + left. apply lookup_delete_eq.
    + right. now exists e.
  - cbn [fst snd]. intros _. now left.
Qed.

Lemma cached_wrapper_hit (ttl : Z) (key_prefix func_name : string)
    (user_id : option string) (now_get now_set : Q)
    (func_outcome : Outcome Exn Any) (c : SimpleCache.t) (e : CacheEntry) :
  c !! cached_key key_prefix func_name user_id = Some e ->
  (now_get <= expires_at e)%Q ->
  value e <> PyNone ->
  cached_wrapper ttl key_prefix func_name user_id now_get now_set func_outcome c
  = (Returns (value e), c, false).
Proof.
  intros He Hfresh Hv.
  unfold cached_wrapper. fold (cached_key key_prefix func_name user_id).
  rewrite (get_fresh c _ e now_get He Hfresh).
  destruct (value e); [congruence | reflexivity..].
Qed.

Lemma get_other_key (c : SimpleCache.t) (key other : string) (now : Q) :
  other <> key -> snd (SimpleCache.get now key c) !! other = c !! other.
Proof.
  intros Hne. unfold SimpleCache.get.
  destruct (c !! key) as [e|]; [|reflexivity].
  destruct (Qgtb now (expires_at e)); cbn [snd]; [|reflexivity].
  apply lookup_delete_ne. congruence.
Qed.

(** X9.  When the key of the call holds an entry that has not expired and
    whose value is not [None], the wrapped function is not called: the
    wrapper returns the stored value and leaves the store as it is, whatever
    the function would have returned or raised. *)
Theorem cached_hit_skips_function :
  forall (ttl : Z) (key_prefix func_name : string) (user_id : option string)
         (now_get now_set : Q) (func_outcome : Outcome Exn Any)
         (c : SimpleCache.t) (e : CacheEntry),
    c !! cached_key key_prefix func_name user_id = Some e ->
    (now_get <= expires_at e)%Q ->
    value e <> PyNone ->
    cached_wrapper ttl key_prefix func_name user_id now_get now_set func_outcome c
    = (Returns (value e), c, false).
Proof.
  intros ttl kp fn uid now_get now_set out c e He Hfresh Hv.
  now apply cached_wrapper_hit.
Qed.

Lemma cached_hit_witness :
  let e := {| value := PyInt 7; expires_at := 30 |} in
  let c : SimpleCache.t := <["summary:u1" := e]> ∅ in
  c !! cached_key "summary" "get_summary" (Some "u1") = Some e /\
  (10 <= expires_at e)%Q /\
  value e <> PyNone /\
  cached_wrapper (E := Exn) 30 "summary" "get_summary" (Some "u1") 10 11
    (Returns (PyInt 8)) c
  = (Returns (PyInt 7), c, false).
Proof.
  intros e c.
  assert (H1 : c !! cached_key "summary" "get_summary" (Some "u1") = Some e)
    by (vm_compute; reflexivity).
  assert (H2 : (10 <= expires_at e)%Q) by (vm_compute; discriminate).
  assert (H3 : value e <> PyNone) by discriminate.
  split; [exact H1|]. split; [exact H2|]. split; [exact H3|].
  exact (cached_hit_skips_function 30 "summary" "get_summary" (Some "u1") 10 11
           (Returns (PyInt 8)) c e H1 H2 H3).
Defined.

(** X10.  After a call that had to call the function and got a result other
    than [None], a second call for the same key no later than [ttl] seconds
    after the result was stored returns that result without calling the
    function, whatever the function would now return or raise. *)
Theorem cached_miss_then_hit :
  forall (ttl : Z) (key_prefix func_name : string) (user_id : option string)
         (now_get now_set now_get2 now_set2 : Q) (result : Any)
         (second : Outcome Exn Any) (c : SimpleCache.t),
    let first := cached_wrapper (E := Exn) ttl key_prefix func_name user_id
                   now_get now_set (Returns result) c in
    snd first = true ->
    result <> PyNone ->
    (now_get2 <= now_set + inject_Z ttl)%Q ->
    cached_wrapper ttl key_prefix func_name user_id now_get2 now_set2 second
      (snd (fst first))
    = (Returns result, snd (fst first), false).
Proof.
  intros ttl kp fn uid now_get now_set now_get2 now_set2 result second c first
         Hcalled Hres Hfresh.
  assert (Hfirst : exists c', first = (Returns result,
            SimpleCache.set now_set (cached_key kp fn uid) result ttl c', true)).
  { subst first. unfold cached_wrapper in Hcalled |- *.
    fold (cached_key kp fn uid) in Hcalled |- *.
    destruct (SimpleCache.get now_get (cached_key kp fn uid) c) as [v c'].
    destruct v; cbn [snd] in Hcalled; try discriminate. now exists c'. }
  destruct Hfirst as [c' Hfirst]. rewrite Hfirst. cbn [fst snd].
  apply (cached_wrapper_hit ttl kp fn uid now_get2 now_set2 second _
           {| value := result; expires_at := (now_set + inject_Z ttl)%Q |}).
  - apply lookup_insert_eq.
  - exact Hfresh.
  - exact Hres.
Qed.

Lemma cached_miss_then_hit_witness :
  let first := cached_wrapper (E := Exn) 30 "" "get_summary" None 0 1
                 (Returns (PyInt 7)) ∅ in
  snd first = true /\
  PyInt 7 <> PyNone /\
  (20 <= 1 + inject_Z 30)%Q /\
  cached_wrapper (E := Exn) 30 "" "get_summary" None 20 21 (Returns (PyInt 8))
    (snd (fst first))
  = (Returns (PyInt 7), snd (fst first), false).
Proof.
  intros first.
  assert (H1 : snd first = true) by reflexivity.
  assert (H2 : PyInt 7 <> PyNone) by discriminate.
  assert (H3 : (20 <= 1 + inject_Z 30)%Q) by (vm_compute; discriminate).
  split; [exact H1|]. split; [exact H2|]. split; [exact H3|].
  exact (cached_miss_then_hit 30 "" "get_summary" None 0 1 20 21 (PyInt 7)
           (Returns (PyInt 8)) ∅ H1 H2 H3).
Defined.

(** X11.  Calls of one wrapped function for different users use different
    keys, and a call for one user leaves the entry of any other user as it
    was (an absent user id counts as the user "global"). *)
Theorem cached_keeps_users_apart :
  forall (ttl : Z) (key_prefix func_name : string) (u1 u2 : option string)
         (now_get now_set : Q) (func_outcome : Outcome Exn Any) (c : SimpleCache.t),
    match u1 with Some u => u | None => "global" end
    <> match u2 with Some u => u | None => "global" end ->
    cached_key key_prefix func_name u1 <> cached_key key_prefix func_name u2 /\
    snd (fst (cached_wrapper ttl key_prefix func_name u1 now_get now_set
                func_outcome c))
      !! cached_key key_prefix func_name u2
    = c !! cached_key key_prefix func_name u2.
Proof.
  intros ttl kp fn u1 u2 now_get now_set out c Hne.
  assert (Hk : cached_key kp fn u1 <> cached_key kp fn u2).
  { intros H. apply Hne. exact (cached_key_user_inj kp fn u1 u2 H). }
  split; [exact Hk|].
  pose proof (get_other_key c (cached_key kp fn u1) (cached_key kp fn u2) now_get
                (not_eq_sym Hk)) as Hframe.
  unfold cached_wrapper. fold (cached_key kp fn u1).
  destruct (SimpleCache.get now_get (cached_key kp fn u1) c) as [v c'].
  cbn [snd] in Hframe.
  destruct v; cbn [fst snd]; try exact Hframe.
  destruct out; cbn [fst snd]; [|exact Hframe].
  unfold SimpleCache.set. now rewrite lookup_insert_ne.
Qed.

Lemma cached_keeps_users_apart_witness :
  let c := SimpleCache.set 0 "summary:u2" (PyInt 2) 30 ∅ in
  "u1" <> "u2" /\
  snd (fst (cached_wrapper (E := Exn) 30 "summary" "get_summary" (Some "u1") 1 2
              (Returns (PyInt 1)) c))
    !! cached_key "summary" "get_summary" (Some "u2")
  = c !! cached_key "summary" "get_summary" (Some "u2").
Proof.
  intros c.
  assert (H : "u1" <> "u2") by discriminate.
  split; [exact H|].
  exact (proj2 (cached_keeps_users_apart 30 "summary" "get_summary"
                  (Some "u1") (Some "u2") 1 2 (Returns (PyInt 1)) c H)).
Defined.

(** ** cases.py *)

(** X12.  When the awaited mutation raises, neither mutating endpoint
    invalidates anything: the cache is left exactly as it was, and the
    endpoint does not end with a response body. *)
Theorem failed_mutation_keeps_cache :
  forall (A : Type) (user_id : string) (e : Exn) (c : SimpleCache.t),
    snd (Cases.upload_case_document (A := A) user_id (Raises e) c) = c /\
    snd (Cases.analyze_case (A := A) user_id (Raises e) c) = c /\
    (forall r : A,
       fst (Cases.upload_case_document user_id (Raises e) c) <> Cases.Done (Body r) /\
       fst (Cases.analyze_case user_id (Raises e) c) <> Cases.Done (Body r)).
Proof.
  intros A user_id e c. unfold Cases.upload_case_document, Cases.analyze_case.
  destruct (isinstance e "DomainError"), (isinstance e "Exception"),
    (isinstance e "CaseNotFound"),
    (isinstance e "CaseMissingFile" || isinstance e "CaseExtractionFailed");
    cbn [fst snd]; repeat split; try reflexivity; discriminate.
Qed.

(** X13.  A mutating endpoint called by one user, whether the mutation
    returns or raises, leaves the cached cases of every other user bound as
    they were. *)
Theorem mutation_keeps_other_users :
  forall (A : Type) (user_id other : string) (o : Outcome Exn A)
         (c : SimpleCache.t),
    other <> user_id ->
    snd (Cases.upload_case_document user_id o c) !! ("cases:" ++ other)
    = c !! ("cases:" ++ other) /\
    snd (Cases.analyze_case user_id o c) !! ("cases:" ++ other)
    = c !! ("cases:" ++ other).
Proof.
  intros A user_id other o c Hne.
  assert (Hk : "cases:" ++ user_id <> "cases:" ++ other).
  { intros H. apply Hne. symmetry. exact (append_inj_r "cases:" _ _ H). }
  destruct o as [r|e].
  - cbn [Cases.upload_case_document Cases.analyze_case snd].
    unfold SimpleCache.invalidate. now rewrite lookup_delete_ne.
  - unfold Cases.upload_case_document, Cases.analyze_case.
    destruct (isinstance e "DomainError"), (isinstance e "Exception"),
      (isinstance e "CaseNotFound"),
      (isinstance e "CaseMissingFile" || isinstance e "CaseExtractionFailed");
      cbn [snd]; split; reflexivity.
Qed.

Lemma mutation_keeps_other_users_witness :
  let c := SimpleCache.set 0 "cases:u2" (PyInt 2) 30 ∅ in
  "u2" <> "u1" /\
  snd (Cases.upload_case_document "u1" (Returns (A := string) (E := Exn) "case") c)
    !! ("cases:" ++ "u2")
  = c !! ("cases:" ++ "u2").
Proof.
  intros c.
  assert (H : "u2" <> "u1") by discriminate.
  split; [exact H|].
  exact (proj1 (mutation_keeps_other_users string "u1" "u2" (Returns "case") c H)).
Defined.

(** X14.  In all five endpoints, an exception of class [Exception] raised by
    the service never escapes and never gives a body: the endpoint ends with
    an [HTTPException] whose detail is [str(e)] and whose status is 400, 404
    or 500; a [DomainError] never gives 500; and 404 is given exactly for a
    [CaseNotFound] in [get_case] and [analyze_case] and for an
    [AnalysisJobNotFound] in [get_analysis_job], never by [list_cases] or
    [upload_case_document]. *)
Theorem endpoints_map_exceptions :
  forall (A : Type) (user_id : string) (e : Exn) (c : SimpleCache.t),
    isinstance e "Exception" = true ->
    let ends : list (Cases.Ended A) :=
      [Cases.list_cases (Raises e);
       fst (Cases.upload_case_document user_id (Raises e) c);
       Cases.get_case (Raises e);
       fst (Cases.analyze_case user_id (Raises e) c);
       Cases.get_analysis_job (Raises e)] in
    Forall (fun r =>
              detail_of r = Some (exn_str e) /\
              exists code, status_of r = Some code /\
                (code = 400 \/ code = 404 \/ code = 500) /\
                (isinstance e "DomainError" = true -> code <> 500)) ends /\
    status_of (Cases.list_cases (A := A) (Raises e)) <> Some 404 /\
    status_of (fst (Cases.upload_case_document (A := A) user_id (Raises e) c))
      <> Some 404 /\
    (status_of (Cases.get_case (A := A) (Raises e)) = Some 404
     <-> isinstance e "CaseNotFound" = true) /\
    (status_of (fst (Cases.analyze_case (A := A) user_id (Raises e) c)) = Some 404
     <-> isinstance e "CaseNotFound" = true) /\
    (status_of (Cases.get_analysis_job (A := A) (Raises e)) = Some 404
     <-> isinstance e "AnalysisJobNotFound" = true).
Proof.
  intros A user_id e c Hexc ends. subst ends.
  unfold Cases.list_cases, Cases.upload_case_document, Cases.get_case,
    Cases.analyze_case, Cases.get_analysis_job.
  rewrite Hexc.
  destruct (isinstance e "DomainError"), (isinstance e "CaseNotFound"),
    (isinstance e "AnalysisJobNotFound"), (isinstance e "CaseMissingFile"),
    (isinstance e "CaseExtractionFailed"); cbn [orb fst status_of detail_of];
    (split; [repeat constructor; eexists; (split; [reflexivity|]);
             (split; [lia | intros; try discriminate; lia])|]);
    repeat split; intros; try discriminate; try reflexivity.
Qed.

Lemma endpoints_map_exceptions_witness :
  let e := {| exn_classes := ["CaseNotFound"; "DomainError"; "Exception"];
              exn_str := "Case not found" |} in
  isinstance e "Exception" = true /\
  status_of (Cases.get_case (A := string) (Raises e)) = Some 404.
Proof.
  intros e.
  assert (H : isinstance e "Exception" = true) by reflexivity.
  split; [exact H|].
  apply (proj1 (proj2 (proj2 (proj2 (endpoints_map_exceptions string "u1" e ∅ H))))).
  reflexivity.
Defined.

(** ** analytics.py: the cached fetch of the cases *)

(** A call that fetched stored the fetched list. *)
Lemma cases_cached_fetched (now_get now_set : Q) (cases : list CaseObj)
    (user_id : string) (c : SimpleCache.t) :
  let first := Analytics._get_cases_cached now_get now_set (Returns cases) user_id c in
  snd first = true ->
  exists c',
    first = (Returns (PyCases (map Analytics.case_dict cases)),
             SimpleCache.set now_set ("cases:" ++ user_id)
               (PyCases (map Analytics.case_dict cases)) Analytics.CACHE_TTL c',
             true).
Proof.
  intros first Hfetched. subst first.
  unfold Analytics._get_cases_cached in Hfetched |- *.
  destruct (SimpleCache.get now_get ("cases:" ++ user_id) c) as [v c'].
  destruct v; cbn [snd] in Hfetched; try discriminate. now exists c'.
Qed.

(** X15.  After a call that fetched the cases from the service, a call for
    the same user no later than 30 seconds after the list was stored returns
    that list without calling the service, whatever the service would now
    return or raise, and leaves the store as it is. *)
Theorem cases_cached_within_ttl :
  forall (now_get now_set now_get2 now_set2 : Q) (cases : list CaseObj)
         (second : Outcome Exn (list CaseObj)) (user_id : string)
         (c : SimpleCache.t),
    let first := Analytics._get_cases_cached now_get now_set (Returns cases) user_id c in
    snd first = true ->
    (now_get2 <= now_set + 30)%Q ->
    Analytics._get_cases_cached now_get2 now_set2 second user_id (snd (fst first))
    = (Returns (PyCases (map Analytics.case_dict cases)), snd (fst first), false).
Proof.
  intros now_get now_set now_get2 now_set2 cases second user_id c first
         Hfetched Hfresh.
  destruct (cases_cached_fetched now_get now_set cases user_id c Hfetched)
    as [c' Hfirst].
  fold first in Hfirst. rewrite Hfirst. cbn [fst snd].
  unfold Analytics._get_cases_cached.
  rewrite (get_fresh _ ("cases:" ++ user_id)
             {| value := PyCases (map Analytics.case_dict cases);
                expires_at := (now_set + inject_Z Analytics.CACHE_TTL)%Q |});
    [reflexivity | apply lookup_insert_eq | exact Hfresh].
Qed.

Lemma cases_cached_within_ttl_witness :
  let first := Analytics._get_cases_cached 0 1 (Returns []) "u1" ∅ in
  snd first = true /\
  (31 <= 1 + 30)%Q /\
  Analytics._get_cases_cached 31 32
    (Raises {| exn_classes := ["Exception"]; exn_str := "down" |}) "u1"
    (snd (fst first))
  = (Returns (PyCases []), snd (fst first), false).
Proof.
  intros first.
  assert (H1 : snd first = true) by reflexivity.
  assert (H2 : (31 <= 1 + 30)%Q) by (vm_compute; discriminate).
  split; [exact H1|]. split; [exact H2|].
  exact (cases_cached_within_ttl 0 1 31 32 []
           (Raises {| exn_classes := ["Exception"]; exn_str := "down" |})
           "u1" ∅ H1 H2).
Defined.



(** X17.  After a mutating endpoint of a user has returned a body, the next
    cached fetch of that user's cases, at any time, calls the service and
    returns and stores the list the service gives: the read that follows a
    successful mutation does not see the list cached before it. *)
Theorem read_after_mutation_fetches :
  forall (A : Type) (user_id : string) (result : A) (cases : list CaseObj)
         (now_get now_set : Q) (c : SimpleCache.t),
    let key := "cases:" ++ user_id in
    let fresh := PyCases (map Analytics.case_dict cases) in
    Analytics._get_cases_cached now_get now_set (Returns cases) user_id
      (snd (Cases.upload_case_document user_id (Returns result) c))
    = (Returns fresh,
       SimpleCache.set now_set key fresh Analytics.CACHE_TTL
         (SimpleCache.invalidate key c), true) /\
    Analytics._get_cases_cached now_get now_set (Returns cases) user_id
      (snd (Cases.analyze_case user_id (Returns result) c))
    = (Returns fresh,
       SimpleCache.set now_set key fresh Analytics.CACHE_TTL
         (SimpleCache.invalidate key c), true).
Proof.
  intros A user_id result cases now_get now_set c key fresh.
  cbn [Cases.upload_case_document Cases.analyze_case snd]. fold key.
  unfold Analytics._get_cases_cached. fold key.
  rewrite (get_miss (SimpleCache.invalidate key c) key now_get)
    by apply lookup_delete_eq.
  split; reflexivity.
Qed.

(** X18.  A fetch that fails is not cached: when the call had to call the
    service and the service raised, the exception is passed on, and the next
    call for the user, at any time, calls the service again and returns what
    it gives. *)
Theorem failed_fetch_is_not_cached :
  forall (now_get now_set now_get2 now_set2 : Q) (e : Exn)
         (cases : list CaseObj) (user_id : string) (c : SimpleCache.t),
    let first := Analytics._get_cases_cached now_get now_set (Raises e) user_id c in
    snd first = true ->
    fst (fst first) = Raises e /\
    let second := Analytics._get_cases_cached now_get2 now_set2 (Returns cases)
                    user_id (snd (fst first)) in
    fst (fst second) = Returns (PyCases (map Analytics.case_dict cases)) /\
    snd second = true.
Proof.
  intros now_get now_set now_get2 now_set2 e cases user_id c first Hfetched.
  subst first. unfold Analytics._get_cases_cached in Hfetched |- *.
  pose proof (get_None_leaves_miss c ("cases:" ++ user_id) now_get) as Hmiss.
  destruct (SimpleCache.get now_get ("cases:" ++ user_id) c) as [v c'].
  destruct v; cbn [fst snd] in Hfetched, Hmiss |- *; try discriminate.
  split; [reflexivity|].
  destruct (get_unbound_or_None c' ("cases:" ++ user_id) now_get2 (Hmiss eq_refl))
    as [c'' [Hget _]].
  rewrite Hget. split; reflexivity.
Qed.

Lemma failed_fetch_is_not_cached_witness :
  let e := {| exn_classes := ["DomainError"; "Exception"]; exn_str := "down" |} in
  let first := Analytics._get_cases_cached 0 1 (Raises e) "u1" ∅ in
  snd first = true /\ fst (fst first) = Raises e.
Proof.
  intros e first.
  assert (H : snd first = true) by reflexivity.
  split; [exact H|].
  exact (proj1 (failed_fetch_is_not_cached 0 1 2 3 e [] "u1" ∅ H)).
Defined.

(** ** analytics.py: get_risk_distribution *)

Section RiskMore.
Import Analytics.

(** The scores of one record. *)
Lemma risk_step_scores d scores case :
  snd (risk_step (d, scores) case) = (scores ++ analyzed_scores [case])%list.
Proof.
  unfold risk_step, analyzed_scores. cbn [flat_map]. rewrite app_nil_r.
  destruct (risk_score case) as [s|].
  - destruct (String.eqb (status case) "analyzed"); [|now rewrite app_nil_r].
    now destruct (s >=? 75), (s >=? 50), (s >=? 25).
  - destruct (String.eqb (status case) "analyzed"); now rewrite app_nil_r.
Qed.

Lemma risk_step_threshold b d scores case :
  bucket_count b (fst (risk_step (d, scores) case))
  = bucket_count b d
    + Z.of_nat (length (List.filter (by_threshold b) (analyzed_scores [case]))).
Proof.
  unfold risk_step, analyzed_scores. cbn [flat_map]. rewrite app_nil_r.
  destruct (risk_score case) as [s|].
  - destruct (String.eqb (status case) "analyzed"); [|simpl; lia].
    cbn [List.filter].
    destruct b; unfold by_threshold; case_cmp; simpl; lia.
  - destruct (String.eqb (status case) "analyzed"); simpl; lia.
Qed.

Lemma analyzed_scores_cons case cases :
  analyzed_scores (case :: cases)
  = (analyzed_scores [case] ++ analyzed_scores cases)%list.
Proof. unfold analyzed_scores. cbn [flat_map]. now rewrite app_nil_r. Qed.

Lemma risk_fold_scores cases :
  forall d scores,
    snd (fold_left risk_step cases (d, scores))
    = (scores ++ analyzed_scores cases)%list.
Proof.
  induction cases as [|case cases IH]; intros d scores.
  - cbn [fold_left snd]. unfold analyzed_scores. cbn [flat_map].
    now rewrite app_nil_r.
  - cbn [fold_left].
    pose proof (risk_step_scores d scores case) as Hs.
    destruct (risk_step (d, scores) case) as [d1 scores1]. cbn [snd] in Hs.
    rewrite IH, Hs, (analyzed_scores_cons case cases). symmetry. apply List.app_assoc.
Qed.

Lemma risk_fold_threshold b cases :
  forall d scores,
    bucket_count b (fst (fold_left risk_step cases (d, scores)))
    = bucket_count b d
      + Z.of_nat (length (List.filter (by_threshold b) (analyzed_scores cases))).
Proof.
  induction cases as [|case cases IH]; intros d scores.
  - cbn. lia.
  - cbn [fold_left].
    pose proof (risk_step_threshold b d scores case) as Hs.
    destruct (risk_step (d, scores) case) as [d1 scores1]. cbn [fst] in Hs.
    rewrite IH, Hs, (analyzed_scores_cons case cases), List.filter_app, length_app. lia.
Qed.

Lemma risk_loop_scores cases : snd (risk_loop cases) = analyzed_scores cases.
Proof. unfold risk_loop. now rewrite risk_fold_scores. Qed.

Lemma risk_loop_threshold b cases :
  bucket_count b (fst (risk_loop cases))
  = Z.of_nat (length (List.filter (by_threshold b) (analyzed_scores cases))).
Proof. unfold risk_loop. rewrite risk_fold_threshold. destruct b; cbn; lia. Qed.

(** The four threshold classes split any list of scores. *)
Lemma by_threshold_partition (l : list Z) :
  (length l
   = length (List.filter (by_threshold Low) l)
     + length (List.filter (by_threshold Medium) l)
     + length (List.filter (by_threshold High) l)
     + length (List.filter (by_threshold Critical) l))%nat.
Proof.
  induction l as [|s l IH]; [reflexivity|].
  cbn [List.filter].
  destruct (by_threshold Low s) eqn:E1, (by_threshold Medium s) eqn:E2,
    (by_threshold High s) eqn:E3, (by_threshold Critical s) eqn:E4;
    cbn [length]; unfold by_threshold in E1, E2, E3, E4;
    rewrite ?andb_true_iff, ?andb_false_iff, ?Z.ltb_lt, ?Z.leb_le,
      ?Z.ltb_ge, ?Z.leb_gt in E1, E2, E3, E4; lia.
Qed.

(** The result in terms of the loop's two outputs. *)
Lemma get_risk_distribution_fields cases :
  get_risk_distribution cases
  = {| distribution := fst (risk_loop cases);
       total_analyzed := Z.of_nat (length (analyzed_scores cases));
       average_score :=
         match analyzed_scores cases with
         | [] => PyNumInt 0
         | _ => PyNumFloat
                  (py_round1 (py_truediv (py_sum (analyzed_scores cases))
                                (Z.of_nat (length (analyzed_scores cases)))))
         end;
       min_score := py_min_or_0 (analyzed_scores cases);
       max_score := py_max_or_0 (analyzed_scores cases) |}.
Proof.
  unfold get_risk_distribution. rewrite <- risk_loop_scores.
  now destruct (risk_loop cases).
Qed.

End RiskMore.

(** X19.  Whatever the scores are, each counter of the distribution is the
    number of analyzed records whose score falls in its class with respect
    to the thresholds 25, 50 and 75 alone: a score below 25, negative ones
    included, counts as low, and a score of 75 or more, above 100 included,
    counts as critical. *)
Theorem risk_buckets_by_threshold :
  forall (cases : list CaseDict) (b : Bucket),
    bucket_count b (Analytics.distribution (Analytics.get_risk_distribution cases))
    = Z.of_nat (length (List.filter (by_threshold b) (analyzed_scores cases))) /\
    (forall s, s < 0 -> by_threshold Low s = true) /\
    (forall s, 100 < s -> by_threshold Critical s = true).
Proof.
  intros cases b. split; [|split].
  - rewrite get_risk_distribution_fields. cbn [Analytics.distribution].
    apply risk_loop_threshold.
  - intros s Hs. unfold by_threshold. case_cmp; [reflexivity | lia].
  - intros s Hs. unfold by_threshold. case_cmp; [reflexivity | lia].
Qed.

Lemma risk_buckets_by_threshold_witness :
  -3 < 0 /\ by_threshold Low (-3) = true /\
  Analytics.distribution
    (Analytics.get_risk_distribution
       [case_with_score "c1" "analyzed" (-3) None "";
        case_with_score "c2" "analyzed" 250 None ""])
  = {| Analytics.low := 1; Analytics.medium := 0; Analytics.high := 0;
       Analytics.critical := 1 |}.
Proof.
  assert (H : -3 < 0) by lia.
  split; [exact H|]. split; [|reflexivity].
  exact (proj1 (proj2 (risk_buckets_by_threshold [] Low)) (-3) H).
Defined.

(** X20.  [total_analyzed] is the number of analyzed records that have a
    score, and it is the sum of the four counters of the distribution. *)
Theorem risk_total_is_sum_of_buckets :
  forall (cases : list CaseDict),
    let r := Analytics.get_risk_distribution cases in
    let d := Analytics.distribution r in
    Analytics.total_analyzed r
    = Z.of_nat (length (List.filter contributes cases)) /\
    Analytics.total_analyzed r
    = Analytics.low d + Analytics.medium d + Analytics.high d + Analytics.critical d.
Proof.
  intros cases r d. subst d r. split.
  - rewrite get_risk_distribution_fields. cbn [Analytics.total_analyzed].
    f_equal. induction cases as [|case cases IH]; [reflexivity|].
    rewrite (analyzed_scores_cons case cases), length_app, IH. cbn [List.filter].
    unfold analyzed_scores, contributes. cbn [flat_map].
    destruct (String.eqb (status case) "analyzed"), (risk_score case);
      reflexivity.
  - pose proof (risk_loop_threshold Low cases) as Hl.
    pose proof (risk_loop_threshold Medium cases) as Hm.
    pose proof (risk_loop_threshold High cases) as Hh.
    pose proof (risk_loop_threshold Critical cases) as Hc.
    pose proof (by_threshold_partition (analyzed_scores cases)) as Hp.
    rewrite get_risk_distribution_fields.
    cbn [Analytics.total_analyzed Analytics.distribution].
    cbn [bucket_count] in Hl, Hm, Hh, Hc. lia.
Qed.

Lemma fold_left_min_spec (l : list Z) :
  forall x,
    let m := fold_left Z.min l x in
    (m = x \/ In m l) /\ m <= x /\ (forall y, In y l -> m <= y).
Proof.
  induction l as [|a l IH]; intros x; cbn [fold_left].
  - cbn [In]. split; [now left|]. split; [lia | contradiction].
  - destruct (IH (Z.min x a)) as [Hin [Hle Hall]]. cbn [In].
    split; [|split].
    + destruct Hin as [Hin|Hin]; [|now right; right].
      destruct (Z.min_spec x a) as [[_ Hm]|[_ Hm]]; rewrite Hm in Hin;
        first [left; congruence | right; left; congruence].
    + lia.
    + intros y [<-|Hy]; [lia | now apply Hall].
Qed.

Lemma fold_left_max_spec (l : list Z) :
  forall x,
    let m := fold_left Z.max l x in
    (m = x \/ In m l) /\ x <= m /\ (forall y, In y l -> y <= m).
Proof.
  induction l as [|a l IH]; intros x; cbn [fold_left].
  - cbn [In]. split; [now left|]. split; [lia | contradiction].
  - destruct (IH (Z.max x a)) as [Hin [Hle Hall]]. cbn [In].
    split; [|split].
    + destruct Hin as [Hin|Hin]; [|now right; right].
      destruct (Z.max_spec x a) as [[_ Hm]|[_ Hm]]; rewrite Hm in Hin;
        first [left; congruence | right; left; congruence].
    + lia.
    + intros y [<-|Hy]; [lia | now apply Hall].
Qed.

Lemma py_min_spec (l : list Z) :
  l <> [] ->
  In (Analytics.py_min_or_0 l) l /\ forall y, In y l -> Analytics.py_min_or_0 l <= y.
Proof.
  destruct l as [|x l]; [congruence|]. intros _. cbn [Analytics.py_min_or_0].
  destruct (fold_left_min_spec l x) as [Hin [Hle Hall]]. cbn [In]. split.
  - destruct Hin as [Hin|Hin]; [left; congruence | now right].
  - intros y [<-|Hy]; [exact Hle | now apply Hall].
Qed.

Lemma py_max_spec (l : list Z) :
  l <> [] ->
  In (Analytics.py_max_or_0 l) l /\ forall y, In y l -> y <= Analytics.py_max_or_0 l.
Proof.
  destruct l as [|x l]; [congruence|]. intros _. cbn [Analytics.py_max_or_0].
  destruct (fold_left_max_spec l x) as [Hin [Hle Hall]]. cbn [In]. split.
  - destruct Hin as [Hin|Hin]; [left; congruence | now right].
  - intros y [<-|Hy]; [exact Hle | now apply Hall].
Qed.

(** X21.  When at least one analyzed record has a score, [min_score] and
    [max_score] are scores of analyzed records, and every score of an
    analyzed record lies between them. *)
Theorem risk_min_max_bound_the_scores :
  forall (cases : list CaseDict),
    analyzed_scores cases <> [] ->
    let r := Analytics.get_risk_distribution cases in
    In (Analytics.min_score r) (analyzed_scores cases) /\
    In (Analytics.max_score r) (analyzed_scores cases) /\
    (forall s, In s (analyzed_scores cases) ->
       Analytics.min_score r <= s <= Analytics.max_score r).
Proof.
  intros cases Hne r. subst r. rewrite get_risk_distribution_fields.
  cbn [Analytics.min_score Analytics.max_score].
  destruct (py_min_spec _ Hne) as [Hmin Hlow].
  destruct (py_max_spec _ Hne) as [Hmax Hhigh].
  split; [exact Hmin|]. split; [exact Hmax|].
  intros s Hs. split; [now apply Hlow | now apply Hhigh].
Qed.

Lemma risk_min_max_witness :
  let cases := [case_with_score "c1" "analyzed" 40 None "";
                case_with_score "c2" "pending" 5 None "";
                case_with_score "c3" "analyzed" 12 None ""] in
  analyzed_scores cases <> [] /\
  In (Analytics.min_score (Analytics.get_risk_distribution cases))
     (analyzed_scores cases).
Proof.
  intros cases.
  assert (H : analyzed_scores cases <> []) by discriminate.
  split; [exact H|].
  exact (proj1 (risk_min_max_bound_the_scores cases H)).
Defined.

Lemma risk_step_skips st case :
  contributes case = false -> Analytics.risk_step st case = st.
Proof.
  destruct st as [d scores]. unfold contributes, Analytics.risk_step.
  destruct (risk_score case) as [s|]; [|reflexivity].
  destruct (String.eqb (status case) "analyzed"); [discriminate | reflexivity].
Qed.

Lemma risk_fold_filter cases :
  forall st,
    fold_left Analytics.risk_step (List.filter contributes cases) st
    = fold_left Analytics.risk_step cases st.
Proof.
  induction cases as [|case cases IH]; intros st; [reflexivity|].
  cbn [List.filter fold_left].
  destruct (contributes case) eqn:Hc.
  - cbn [fold_left]. apply IH.
  - rewrite (risk_step_skips st case Hc). apply IH.
Qed.

(** X22.  Records that are not analyzed or have no score do not influence
    the result at all: removing them from the input gives the same result.
    In particular, when no record is analyzed with a score, as for the empty
    list, every counter, the total, the average, the minimum and the
    maximum are 0. *)
Theorem risk_ignores_unscored_records :
  forall (cases : list CaseDict),
    Analytics.get_risk_distribution (List.filter contributes cases)
    = Analytics.get_risk_distribution cases /\
    ((forall case, In case cases -> contributes case = false) ->
     Analytics.get_risk_distribution cases
     = {| Analytics.distribution :=
            {| Analytics.low := 0; Analytics.medium := 0;
               Analytics.high := 0; Analytics.critical := 0 |};
          Analytics.total_analyzed := 0;
          Analytics.average_score := PyNumInt 0;
          Analytics.min_score := 0;
          Analytics.max_score := 0 |}).
Proof.
  intros cases.
  assert (Hfilter : Analytics.get_risk_distribution (List.filter contributes cases)
                    = Analytics.get_risk_distribution cases).
  { unfold Analytics.get_risk_distribution, Analytics.risk_loop.
    now rewrite risk_fold_filter. }
  split; [exact Hfilter|].
  intros Hnone. rewrite <- Hfilter.
  replace (List.filter contributes cases) with (@nil CaseDict); [reflexivity|].
  symmetry. clear Hfilter. induction cases as [|case cases IH]; [reflexivity|].
  cbn [List.filter]. rewrite (Hnone case (or_introl eq_refl)).
  apply IH. intros c Hc. apply Hnone. now right.
Qed.

Lemma risk_ignores_unscored_witness :
  let cases := [case_with_score "c1" "pending" 90 None "";
                {| case_id := "c2"; status := "analyzed"; risk_score := None;
                   signals := None; created_at := "" |}] in
  (forall case, In case cases -> contributes case = false) /\
  Analytics.total_analyzed (Analytics.get_risk_distribution cases) = 0.
Proof.
  intros cases.
  assert (H : forall case, In case cases -> contributes case = false).
  { intros case Hin. subst cases. cbn [In] in Hin.
    destruct Hin as [<-|[<-|[]]]; reflexivity. }
  split; [exact H|].
  exact (f_equal Analytics.total_analyzed
           (proj2 (risk_ignores_unscored_records cases) H)).
Defined.










(** ** analytics.py: get_signal_breakdown *)

Lemma In_first_seen (n : string) (l : list string) :
  In n (first_seen l) <-> In n l.
Proof.
  induction l as [|a l IH]; [reflexivity|].
  cbn [first_seen In]. rewrite filter_In, IH.
  destruct (String.eqb_spec a n) as [->|Hne]; cbn [negb]; [tauto|].
  split; [tauto|]. intros [H|H]; [contradiction | tauto].
Qed.

Lemma NoDup_first_seen (l : list string) : List.NoDup (first_seen l).
Proof.
  induction l as [|a l IH]; cbn [first_seen]; constructor.
  - rewrite filter_In, String.eqb_refl. cbn [negb].
    intros [_ H]. discriminate.
  - now apply List.NoDup_filter.
Qed.

Lemma breakdown_names_Permutation (cases : list CaseDict) :
  Permutation (map Signal.out_name (Signal.get_signal_breakdown cases))
    (detectors_seen cases).
Proof.
  unfold Signal.get_signal_breakdown.
  rewrite sorted_reverse_Permutation, breakdown_unsorted, map_map.
  cbn [Signal.finish Signal.out_name expected_stats Signal.name].
  now rewrite map_id.
Qed.

(** X24.  The output lists every detector once: no two elements have the
    same name, and a name is listed exactly when one of the scanned entries
    (a dictionary value in the detector_breakdown of an analyzed case with
    signals) bears it, whatever its score. *)
Theorem signal_breakdown_lists_each_detector_once :
  forall (cases : list CaseDict),
    let names := map Signal.out_name (Signal.get_signal_breakdown cases) in
    List.NoDup names /\
    (forall d, In d names <-> In d (map e_name (entries cases))).
Proof.
  intros cases names. subst names.
  pose proof (breakdown_names_Permutation cases) as HP. split.
  - apply (Permutation_NoDup (Permutation_sym HP)). apply NoDup_first_seen.
  - intros d. rewrite <- (In_first_seen d (map e_name (entries cases))).
    split; intros H.
    + exact (Permutation_in _ HP H).
    + exact (Permutation_in _ (Permutation_sym HP) H).
Qed.

(** X25.  A detector that was scanned but never with a score above 0 is
    still part of the output, with triggered_count 0, max_score 0, no
    case ids and avg_score 0. *)
Theorem untriggered_detector_is_listed_with_zeros :
  forall (cases : list CaseDict) (d : string),
    In d (map e_name (entries cases)) ->
    triggering d (entries cases) = [] ->
    In {| Signal.out_name := d;
          Signal.out_triggered_count := 0;
          Signal.out_max_score := 0;
          Signal.out_case_ids := [];
          Signal.out_avg_score := PyNumInt 0 |}
       (Signal.get_signal_breakdown cases).
Proof.
  intros cases d Hd Hnone. unfold Signal.get_signal_breakdown.
  rewrite In_sorted_reverse, breakdown_unsorted, in_map_iff.
  exists d. split.
  - unfold expected_stats. rewrite Hnone. reflexivity.
  - unfold detectors_seen. now apply In_first_seen.
Qed.

Lemma untriggered_detector_witness :
  let cases := [case_with_detector "case-1" "d1" 0 None "" [];
                case_with_detector "case-2" "d1" (-4) None "" []] in
  In "d1" (map e_name (entries cases)) /\
  triggering "d1" (entries cases) = [] /\
  In {| Signal.out_name := "d1";
        Signal.out_triggered_count := 0;
        Signal.out_max_score := 0;
        Signal.out_case_ids := [];
        Signal.out_avg_score := PyNumInt 0 |}
     (Signal.get_signal_breakdown cases).
Proof.
  intros cases.
  assert (H1 : In "d1" (map e_name (entries cases))) by (left; reflexivity).
  assert (H2 : triggering "d1" (entries cases) = []) by reflexivity.
  split; [exact H1|]. split; [exact H2|].
  exact (untriggered_detector_is_listed_with_zeros cases "d1" H1 H2).
Defined.

Lemma triggering_positive (d : string) (es : list Entry) (e : Entry) :
  In e (triggering d es) -> In e es /\ e_name e = d /\ 0 < e_score e.
Proof.
  unfold triggering, triggers. rewrite filter_In, andb_true_iff.
  intros [Hin [Hn Hs]]. apply String.eqb_eq in Hn. apply Z.ltb_lt in Hs.
  now repeat split.
Qed.

(** X26.  In every output element the numbers fit together: case_ids has
    min(10, triggered_count) elements; every score that triggered the
    detector is positive and at most max_score; max_score is one of these
    scores when there is any, and otherwise max_score is 0, case_ids is
    empty and avg_score is the integer 0. *)
Theorem signal_stats_are_consistent :
  forall (cases : list CaseDict) (st : Signal.SignalStat),
    In st (Signal.get_signal_breakdown cases) ->
    let hits := triggering (Signal.out_name st) (entries cases) in
    Z.of_nat (length (Signal.out_case_ids st))
    = Z.min 10 (Signal.out_triggered_count st) /\
    (forall e, In e hits -> 0 < e_score e <= Signal.out_max_score st) /\
    (hits <> [] -> exists e, In e hits /\ e_score e = Signal.out_max_score st) /\
    (hits = [] ->
     Signal.out_triggered_count st = 0 /\ Signal.out_max_score st = 0 /\
     Signal.out_case_ids st = [] /\ Signal.out_avg_score st = PyNumInt 0).
Proof.
  intros cases st Hin hits.
  rewrite (In_breakdown cases st Hin).
  cbn [Signal.finish Signal.out_name Signal.out_triggered_count
       Signal.out_max_score Signal.out_case_ids Signal.out_avg_score
       expected_stats Signal.name Signal.triggered_count Signal.max_score
       Signal.case_ids Signal.total_score].
  fold hits.
  destruct (fold_left_max_spec (map e_score hits) 0) as [Hmax [Hnonneg Hbound]].
  split; [|split; [|split]].
  - rewrite length_firstn, length_map. lia.
  - intros e He. split.
    + now apply (triggering_positive _ _ _ He).
    + apply Hbound. now apply in_map.
  - intros Hne. destruct hits as [|e0 hits'] eqn:Hh; [congruence|].
    assert (Hpos : 0 < e_score e0).
    { apply (triggering_positive (Signal.out_name st) (entries cases)).
      fold hits. rewrite Hh. now left. }
    assert (Hle : e_score e0 <= fold_left Z.max (map e_score (e0 :: hits')) 0).
    { apply Hbound. now left. }
    destruct Hmax as [Hzero|Hmem]; [lia|].
    apply in_map_iff in Hmem. destruct Hmem as [e [He1 He2]]. now exists e.
  - intros Hnil. rewrite Hnil. repeat split; reflexivity.
Qed.

Lemma signal_stats_consistent_witness :
  let cases := [case_with_detector "case-1" "d1" 5 None "" [];
                case_with_detector "case-2" "d1" 9 None "" []] in
  let st := {| Signal.out_name := "d1";
               Signal.out_triggered_count := 2;
               Signal.out_max_score := 9;
               Signal.out_case_ids := ["case-1"; "case-2"];
               Signal.out_avg_score := PyNumFloat 7 |} in
  In st (Signal.get_signal_breakdown cases) /\
  Z.of_nat (length (Signal.out_case_ids st)) = Z.min 10 (Signal.out_triggered_count st).
Proof.
  intros cases st.
  assert (Hin : In st (Signal.get_signal_breakdown cases)).
  { vm_compute. left. reflexivity. }
  split; [exact Hin|].
  exact (proj1 (signal_stats_are_consistent cases st Hin)).
Defined.

(** X27.  avg_score is taken over the triggering entries only: for a
    detector that was triggered it is [round(total / count, 1)] where
    [total] and [count] are the sum and the number of its scores above 0;
    entries with a score of 0 or less do not enter it. *)
Theorem signal_average_over_triggering_entries :
  forall (cases : list CaseDict) (st : Signal.SignalStat),
    In st (Signal.get_signal_breakdown cases) ->
    let hits := triggering (Signal.out_name st) (entries cases) in
    hits <> [] ->
    Signal.out_avg_score st
    = PyNumFloat
        (py_round1 (py_truediv (Analytics.py_sum (map e_score hits))
                      (Z.of_nat (length hits)))).
Proof.
  intros cases st Hin hits Hne.
  rewrite (In_breakdown cases st Hin) at 1.
  cbn [Signal.finish Signal.out_avg_score expected_stats Signal.triggered_count
       Signal.total_score].
  fold hits.
  destruct hits as [|e0 hits']; [congruence|]. reflexivity.
Qed.

Lemma signal_average_witness :
  let cases := [case_with_detector "case-1" "d1" 6 None "" [];
                case_with_detector "case-2" "d1" 0 None "" [];
                case_with_detector "case-3" "d1" 3 None "" []] in
  let st := {| Signal.out_name := "d1";
               Signal.out_triggered_count := 2;
               Signal.out_max_score := 6;
               Signal.out_case_ids := ["case-1"; "case-3"];
               Signal.out_avg_score := PyNumFloat 4.5 |} in
  In st (Signal.get_signal_breakdown cases) /\
  triggering (Signal.out_name st) (entries cases) <> [] /\
  Signal.out_avg_score st
  = PyNumFloat
      (py_round1 (py_truediv
                    (Analytics.py_sum
                       (map e_score (triggering (Signal.out_name st) (entries cases))))
                    (Z.of_nat (length (triggering (Signal.out_name st)
                                         (entries cases)))))).
Proof.
  intros cases st.
  assert (Hin : In st (Signal.get_signal_breakdown cases)).
  { vm_compute. left. reflexivity. }
  assert (Hne : triggering (Signal.out_name st) (entries cases) <> [])
    by discriminate.
  split; [exact Hin|]. split; [exact Hne|].
  exact (signal_average_over_triggering_entries cases st Hin Hne).
Defined.

Lemma breakdown_depends_on_entries (cases cases' : list CaseDict) :
  entries cases = entries cases' ->
  Signal.get_signal_breakdown cases = Signal.get_signal_breakdown cases'.
Proof.
  intros H. unfold Signal.get_signal_breakdown.
  now rewrite !signal_loop_entries, H.
Qed.

Lemma entries_filter_scanned (cases : list CaseDict) :
  entries (List.filter scanned cases) = entries cases.
Proof.
  unfold entries. induction cases as [|case cases IH]; [reflexivity|].
  cbn [List.filter flat_map]. destruct (scanned case) eqn:Hs.
  - cbn [flat_map]. now rewrite IH.
  - rewrite IH. unfold entries_of_case. fold (scanned case). now rewrite Hs.
Qed.

Lemma entries_of_items_dicts (cid : string) (items : list (string * DetectorData)) :
  entries_of_items cid (List.filter is_dict items) = entries_of_items cid items.
Proof.
  unfold entries_of_items. induction items as [|[n data] items IH]; [reflexivity|].
  cbn [List.filter flat_map]. unfold is_dict at 1. cbn [snd].
  destruct data as [sc|]; cbn [flat_map snd]; now rewrite IH.
Qed.

Lemma entries_drop_malformed (cases : list CaseDict) :
  entries (map drop_malformed cases) = entries cases.
Proof.
  unfold entries. induction cases as [|case cases IH]; [reflexivity|].
  cbn [map flat_map]. rewrite IH. f_equal.
  unfold entries_of_case, drop_malformed. cbn [status signals case_id].
  destruct (signals case) as [[[items|] others]|]; cbn; try reflexivity.
  destruct (String.eqb (status case) "analyzed"); cbn [andb]; [|reflexivity].
  apply entries_of_items_dicts.
Qed.

(** X28.  Records that are not analyzed or have no signals, and values of a
    detector_breakdown that are not dictionaries, do not influence the
    output at all: removing them gives the same output.  When no record is
    analyzed with signals, as for the empty list, the output is empty. *)
Theorem signal_breakdown_ignores_skipped_input :
  forall (cases : list CaseDict),
    Signal.get_signal_breakdown (List.filter scanned cases)
    = Signal.get_signal_breakdown cases /\
    Signal.get_signal_breakdown (map drop_malformed cases)
    = Signal.get_signal_breakdown cases /\
    ((forall case, In case cases -> scanned case = false) ->
     Signal.get_signal_breakdown cases = []).
Proof.
  intros cases. split; [|split].
  - apply breakdown_depends_on_entries, entries_filter_scanned.
  - apply breakdown_depends_on_entries, entries_drop_malformed.
  - intros Hnone.
    rewrite <- (breakdown_depends_on_entries _ _ (entries_filter_scanned cases)).
    replace (List.filter scanned cases) with (@nil CaseDict); [reflexivity|].
    symmetry. induction cases as [|case cases IH]; [reflexivity|].
    cbn [List.filter]. rewrite (Hnone case (or_introl eq_refl)).
    apply IH. intros c Hc. apply Hnone. now right.
Qed.

Lemma signal_breakdown_ignores_witness :
  let cases := [{| case_id := "case-1"; status := "pending"; risk_score := None;
                   signals := Some {| detector_breakdown :=
                                        Some [("d1", DetDict (Some 5))];
                                      other_keys := [] |};
                   created_at := "" |};
                {| case_id := "case-2"; status := "analyzed"; risk_score := None;
                   signals := None; created_at := "" |}] in
  (forall case, In case cases -> scanned case = false) /\
  Signal.get_signal_breakdown cases = [].
Proof.
  intros cases.
  assert (H : forall case, In case cases -> scanned case = false).
  { intros case Hin. subst cases. cbn [In] in Hin.
    destruct Hin as [<-|[<-|[]]]; reflexivity. }
  split; [exact H|].
  exact (proj2 (proj2 (signal_breakdown_ignores_skipped_input cases)) H).
Defined.

Lemma fold_left_max_app (l l' : list Z) (x : Z) :
  fold_left Z.max l x <= fold_left Z.max (l ++ l') x.
Proof.
  rewrite fold_left_app.
  now destruct (fold_left_max_spec l' (fold_left Z.max l x)) as [_ [H _]].
Qed.

(** X29.  Scanning further records never removes a detector from the output
    and never lowers its triggered_count or its max_score. *)
Theorem signal_breakdown_grows_with_input :
  forall (cases more : list CaseDict) (st : Signal.SignalStat),
    In st (Signal.get_signal_breakdown cases) ->
    exists st',
      In st' (Signal.get_signal_breakdown (cases ++ more)) /\
      Signal.out_name st' = Signal.out_name st /\
      Signal.out_triggered_count st <= Signal.out_triggered_count st' /\
      Signal.out_max_score st <= Signal.out_max_score st'.
Proof.
  intros cases more st Hin.
  pose proof (In_breakdown cases st Hin) as Hst.
  set (d := Signal.out_name st) in *.
  assert (Hd : In d (map e_name (entries cases))).
  { apply (In_first_seen d (map e_name (entries cases))).
    apply (Permutation_in _ (breakdown_names_Permutation cases)).
    subst d. now apply in_map. }
  exists (Signal.finish (expected_stats (entries (cases ++ more)) d)).
  split; [|split; [reflexivity|]].
  - unfold Signal.get_signal_breakdown.
    rewrite In_sorted_reverse, breakdown_unsorted, in_map_iff.
    exists d. split; [reflexivity|].
    unfold detectors_seen. apply In_first_seen.
    rewrite entries_app, map_app, in_app_iff. now left.
  - rewrite Hst.
    cbn [Signal.finish Signal.out_triggered_count Signal.out_max_score
         expected_stats Signal.triggered_count Signal.max_score].
    rewrite entries_app. unfold triggering.
    rewrite List.filter_app, map_app, length_app. split; [lia|].
    apply fold_left_max_app.
Qed.

Lemma signal_breakdown_grows_witness :
  let a := case_with_detector "case-1" "d1" 5 None "" [] in
  let b := case_with_detector "case-2" "d1" 9 None "" [] in
  let st := {| Signal.out_name := "d1";
               Signal.out_triggered_count := 1;
               Signal.out_max_score := 5;
               Signal.out_case_ids := ["case-1"];
               Signal.out_avg_score := PyNumFloat 5 |} in
  In st (Signal.get_signal_breakdown [a]) /\
  exists st',
    In st' (Signal.get_signal_breakdown ([a] ++ [b])) /\
    Signal.out_name st' = Signal.out_name st /\
    Signal.out_triggered_count st <= Signal.out_triggered_count st' /\
    Signal.out_max_score st <= Signal.out_max_score st'.
Proof.
  intros a b st.
  assert (Hin : In st (Signal.get_signal_breakdown [a])).
  { vm_compute. left. reflexivity. }
  split; [exact Hin|].
  exact (signal_breakdown_grows_with_input [a] [b] st Hin).
Defined.
